(** * NodeRedTime: epoch time from a Node-Red server, with local extrapolation

    Shallow embedding of [src/NodeRedTime.cpp] / [src/NodeRedTime.h] and the
    properties of its two public operations, [serverTime] and
    [syntheticTime].

    Numeric model.  The instance variables are declared [double] but, as the
    header remarks, "are only used to hold integer milliseconds values".
    They are embedded as exact rationals ([Q]): comparisons, sums and the
    division by [1000.0] are exact, which is what binary64 arithmetic gives on
    integer milliseconds below 2^53.  The reply of the server goes through
    [toDouble()] and may be any number (negative, fractional), so it is a [Q]
    as well.  A NaN reply fails the validity test like any reply below the
    minimum, and an infinite one passes it like any reply beyond the range
    of [time_t]: neither adds a path to the ones rationals take.

    Conversions from [double] to an integer type truncate towards zero.
    When the truncated value does not fit the destination type the C++
    standard leaves the result undefined and the code goes on with whatever
    the conversion gave; the model takes the low 32 bits of the truncated
    value ([to_long], [to_time_t]), so that every call on readings the
    device can make returns.  The statements that depend on arithmetic say
    where they apply: where the conversions are in range and, for the sum
    of the extrapolation, where the cached epoch is a whole number of
    milliseconds, the values on which the rationals and binary64 agree
    (module [Binary64] evaluates the source's expressions in binary64).

    The outside world (the HTTP exchange and the readings of [millis()]) is
    an argument of each call, and each call returns the instance it leaves
    behind.  [syntheticTime] also reports which way it answered; this tag is
    not in the source, it records whether [serverTime] was called. *)

From Stdlib Require Import ZArith NArith QArith Qround Lqa Lia Bool List.
From Stdlib Require Import Ascii String.
From Stdlib Require Import PrimFloat FloatOps SpecFloat.
Import ListNotations.

Local Open Scope Z_scope.

(** ** C++ conversions on the ESP8266 / ESP32 targets *)

Module Cxx.

(** [long] is a 32-bit signed type and [unsigned long] a 32-bit unsigned one
    on both targets; the header states that [time_t] is "an unsigned 32-bit
    quantity". *)
Definition LONG_MIN : Z := - 2 ^ 31.
Definition LONG_MAX : Z := 2 ^ 31 - 1.
Definition ULONG_MAX : Z := 2 ^ 32 - 1.
Definition TIME_T_MAX : Z := 2 ^ 32 - 1.

(** Discarding the fractional part: rounding towards zero. *)
Definition Qtrunc (x : Q) : Z := Z.quot (Qnum x) (Zpos (Qden x)).

(** Floating-integral conversion to a type whose values are [lo..hi]. *)
Definition convert (lo hi : Z) (x : Q) : option Z :=
  let z := Qtrunc x in
  if (lo <=? z) && (z <=? hi) then Some z else None.

(** The midpoint of two [unsigned long] readings always fits an
    [unsigned long]; readings outside the type are refused. *)
Definition to_ulong : Q -> option Z := convert 0 ULONG_MAX.

(** The low 32 bits of an integer, read as unsigned and in two's
    complement. *)
Definition wrap_unsigned (z : Z) : Z := z mod 2 ^ 32.

Definition wrap_signed (z : Z) : Z :=
  let r := z mod 2 ^ 32 in
  if r <? 2 ^ 31 then r else r - 2 ^ 32.

(** The casts [(long)] at line 127 and to [time_t] at lines 88 and 133:
    the truncated value when it fits, its low 32 bits otherwise. *)
Definition to_long (x : Q) : Z := wrap_signed (Qtrunc x).
Definition to_time_t (x : Q) : Z := wrap_unsigned (Qtrunc x).

(** A reading of [millis()]: an [unsigned long]. *)
Definition is_ulong (z : Z) : Prop := 0 <= z <= ULONG_MAX.

(** [x > y] on doubles. *)
Definition Qgt_bool (x y : Q) : bool := negb (Qle_bool x y).

End Cxx.

(** ** Sequencing steps that may refuse their input *)

Definition bind {A B : Type} (m : option A) (k : A -> option B) : option B :=
  match m with
  | Some a => k a
  | None => None
  end.

Notation "x <- m ;; k" := (bind m (fun x => k))
  (at level 61, m at next level, right associativity).

(** ** The class *)

Module NodeRedTime.

Import Cxx.

(** Instance variables, with the names of the header. *)
Record t : Type := mk {
  _url : string;
  _recall_ms : Q;
  _minEpoch_ms : Q;
  _epochLastSync_ms : Q;
  _uptimeLastSync_ms : Q
}.

Definition set_sync (self : t) (epoch_ms uptime_ms : Q) : t :=
  {| _url := _url self;
     _recall_ms := _recall_ms self;
     _minEpoch_ms := _minEpoch_ms self;
     _epochLastSync_ms := epoch_ms;
     _uptimeLastSync_ms := uptime_ms |}.

Definition set_epochLastSync (self : t) (epoch_ms : Q) : t :=
  set_sync self epoch_ms (_uptimeLastSync_ms self).

(** The constructor.  [recall_s] is an [unsigned int] and [minEpoch_s] a
    [time_t], both unsigned; the two sync fields take their in-class
    initialisers [0.0]. *)
Definition NodeRedTime (url : string) (recall_s : N) (minEpoch_s : N) : t :=
  {| _url := url;
     _recall_ms :=
       (1000 * inject_Z (Z.of_N (N.min (N.max recall_s 60) 14400)))%Q;
     _minEpoch_ms := (1000 * inject_Z (Z.of_N minEpoch_s))%Q;
     _epochLastSync_ms := 0%Q;
     _uptimeLastSync_ms := 0%Q |}.

(** What the outside world answers during one call of [serverTime]: the
    result of [http.begin], the two readings of [millis()] around the
    request, the status returned by [http.GET()] and the number that
    [http.getString().toDouble()] makes of the body. *)
Record Exchange : Type := mkExchange {
  begin_ok : bool;
  millis_before : Z;
  httpCode : Z;
  millis_after : Z;
  reply : Q
}.

Definition HTTP_CODE_OK : Z := 200.

(** The boolean returned, the value written through [epoch], and the
    instance after the call. *)
Record Outcome : Type := mkOutcome {
  ok : bool;
  epoch : Z;
  after : t
}.

Definition serverTime (self : t) (x : Exchange) : option Outcome :=
  let serverTime_ms := 0%Q in
  let sync_ms := 0 in
  r <- (if begin_ok x then
          let sync_ms := millis_before x in
          let httpCode := httpCode x in
          sync_ms <- to_ulong
            ((1 * inject_Z sync_ms + inject_Z (millis_after x)) / 2)%Q ;;
          let serverTime_ms :=
            if httpCode =? HTTP_CODE_OK then reply x else serverTime_ms in
          Some (serverTime_ms, sync_ms)
        else Some (serverTime_ms, sync_ms)) ;;
  let '(serverTime_ms, sync_ms) := r in
  if Qle_bool (_minEpoch_ms self) serverTime_ms then
    let self := set_sync self serverTime_ms (1 * inject_Z sync_ms)%Q in
    let e := to_time_t (serverTime_ms / 1000)%Q in
    Some {| ok := true; epoch := e; after := self |}
  else
    let self := set_epochLastSync self 0%Q in
    Some {| ok := false; epoch := 0; after := self |}.

(** Which way [syntheticTime] answered: from the cached pair, or by
    calling [serverTime]. *)
Inductive Path : Type := Extrapolated | Fetched.

Definition viaServerTime (self : t) (x : Exchange) : option (Path * Outcome) :=
  o <- serverTime self x ;; Some (Fetched, o).

(** [now] is the reading of [millis()] at line 113; it is taken only when
    the first test passes. *)
Definition syntheticTime (self : t) (now : Z) (x : Exchange)
  : option (Path * Outcome) :=
  if Qle_bool (_minEpoch_ms self) (_epochLastSync_ms self) then
    let now_ms := (1 * inject_Z now)%Q in
    if Qgt_bool now_ms (_uptimeLastSync_ms self) then
      let d :=
        to_long (now_ms - (_uptimeLastSync_ms self + _recall_ms self))%Q in
      if d <? 0 then
        let e := to_time_t
          ((now_ms + _epochLastSync_ms self - _uptimeLastSync_ms self)
             / 1000)%Q in
        Some (Extrapolated, {| ok := true; epoch := e; after := self |})
      else viaServerTime self x
    else viaServerTime self x
  else viaServerTime self x.

(** *** Sequences of calls *)

Inductive Call : Type :=
| CallServerTime (x : Exchange)
| CallSyntheticTime (now : Z) (x : Exchange).

Definition call (self : t) (c : Call) : option (Path * Outcome) :=
  match c with
  | CallServerTime x => viaServerTime self x
  | CallSyntheticTime now x => syntheticTime self now x
  end.

(** One record per call of a run: the instance before the call, the call,
    and what it gave. *)
Record Event : Type := mkEvent {
  before : t;
  made : Call;
  path : Path;
  outcome : Outcome
}.

Fixpoint run (self : t) (calls : list Call) : option (list Event) :=
  match calls with
  | [] => Some []
  | c :: calls =>
      r <- call self c ;;
      evs <- run (after (snd r)) calls ;;
      Some ({| before := self; made := c;
               path := fst r; outcome := snd r |} :: evs)
  end.

(** States an instance can be in after construction and any calls. *)
Inductive reachable (init : t) : t -> Prop :=
| reachable_init : reachable init init
| reachable_call self c p o :
    reachable init self ->
    call self c = Some (p, o) ->
    reachable init (after o).

End NodeRedTime.

Import Cxx NodeRedTime.

(** ** Derived notions used in the statements *)

(** The value of the local [serverTime_ms] when line 78 tests it: the parsed
    body of a reply with status 200, and [0.0] otherwise. *)
Definition received (x : Exchange) : Q :=
  if begin_ok x then
    if httpCode x =? HTTP_CODE_OK then reply x else 0%Q
  else 0%Q.

(** Runs are summarised by the path, the boolean and the value written
    through [epoch] at each call. *)
Definition summary (ev : Event) : Path * bool * Z :=
  (path ev, ok (outcome ev), epoch (outcome ev)).

(** In a state of the instance, [_epochLastSync_ms] is the sentinel or a
    valid epoch. *)
Definition sentinel_or_valid (self : t) : Prop :=
  _epochLastSync_ms self = 0%Q
  \/ (_minEpoch_ms self <= _epochLastSync_ms self)%Q.

(** ** Exchanges and instances used in the scenarios *)

Definition exchangeA : Exchange :=
  {| begin_ok := true; millis_before := 100; httpCode := 200;
     millis_after := 111; reply := 1700000000000%Q |}.

Definition syncedA : t :=
  {| _url := "http://host:1880/time/"; _recall_ms := 3600000%Q;
     _minEpoch_ms := 1262304000000%Q;
     _epochLastSync_ms := 1700000000000%Q; _uptimeLastSync_ms := 105%Q |}.

Definition exchangeMinus5 : Exchange :=
  {| begin_ok := true; millis_before := 300; httpCode := 200;
     millis_after := 310; reply := (-5)%Q |}.

Definition exchange404 : Exchange :=
  {| begin_ok := true; millis_before := 3600110; httpCode := 404;
     millis_after := 3600120; reply := 0%Q |}.

Definition exchangeB : Exchange :=
  {| begin_ok := true; millis_before := 3600200; httpCode := 200;
     millis_after := 3600210; reply := 1700003600100%Q |}.

Definition callsA : list Call :=
  [CallSyntheticTime 7 exchangeA; CallSyntheticTime 2200 exchangeA;
   CallSyntheticTime 3600104 exchangeA; CallSyntheticTime 3600105 exchange404;
   CallSyntheticTime 3600200 exchangeB; CallSyntheticTime 3602300 exchangeB].


(** A reply for a moment in the year 2128, whose seconds exceed 2^32 - 1. *)
Definition exchange2128 : Exchange :=
  {| begin_ok := true; millis_before := 100; httpCode := 200;
     millis_after := 111; reply := 5000000000000%Q |}.

Definition exchange999 : Exchange :=
  {| begin_ok := true; millis_before := 100; httpCode := 200;
     millis_after := 111; reply := 1700000000999%Q |}.

(** ** Further notions used in the statements *)

(** The estimate of [millis()] at the moment the server read its clock:
    the mean of the two readings, fraction dropped (line 63). *)
Definition midpoint (x : Exchange) : Z :=
  (millis_before x + millis_after x) / 2.

(** The resync interval in seconds that the constructor keeps. *)
Definition clipped_recall_s (recall_s : N) : Z :=
  Z.of_N (N.min (N.max recall_s 60) 14400).

(** The uptime of the synchronisation point is a value of [unsigned long]
    and the epoch of the synchronisation point is not negative. *)
Definition integral_sync (self : t) : Prop :=
  (exists u : Z, _uptimeLastSync_ms self = (1 * inject_Z u)%Q /\ is_ulong u)
  /\ (0 <= _epochLastSync_ms self)%Q.

(** The milliseconds that [syntheticTime] divides by 1000 on the
    extrapolation path (lines 133-135). *)
Definition extrapolated_ms (self : t) (now : Z) : Q :=
  (inject_Z now + _epochLastSync_ms self - _uptimeLastSync_ms self)%Q.

(** ** The arithmetic of the source in binary64

    The two expressions that produce seconds, evaluated on [double]s as the
    code does, to compare with the rationals of the model. *)

Module Binary64.

(** A finite [double] with its fraction dropped. *)
Definition truncate (f : float) : option Z :=
  match Prim2SF f with
  | S754_zero _ => Some 0
  | S754_finite s m e =>
      let v := if 0 <=? e then Zpos m * 2 ^ e else Zpos m / 2 ^ (- e) in
      Some (if s then - v else v)
  | _ => None
  end.

(** Line 88: [serverTime_ms / 1000.0]. *)
Definition served_seconds (serverTime_ms : float) : option Z :=
  truncate (serverTime_ms / 1000)%float.

(** Lines 133-135:
    [(now_ms + _epochLastSync_ms - _uptimeLastSync_ms) / 1000.0]. *)
Definition extrapolated_seconds
    (now_ms epochLastSync_ms uptimeLastSync_ms : float) : option Z :=
  truncate ((now_ms + epochLastSync_ms - uptimeLastSync_ms) / 1000)%float.

End Binary64.

(** ** The example sketches

    [connectToWiFiNetwork] (both sketches) and [loop] of the NTP comparison
    sketch.  [unsigned long] arithmetic wraps modulo 2^32 and the cast of an
    [unsigned long] to [long] reads the same 32 bits in two's complement. *)

Module Sketch.

Definition ULONG_MOD : Z := 2 ^ 32.

Definition ulong_add (a b : Z) : Z := (a + b) mod ULONG_MOD.
Definition ulong_sub (a b : Z) : Z := (a - b) mod ULONG_MOD.

Definition long_of_ulong (v : Z) : Z :=
  if v <? 2 ^ 31 then v else v - ULONG_MOD.

(** The test [(long)(millis() - timeout) >= 0]. *)
Definition timeoutExpired (timeout now : Z) : bool :=
  0 <=? long_of_ulong (ulong_sub now timeout).

(** One turn of the [while] loop: what [WiFi.status()] says and, when it
    does not say connected, what [millis()] reads. *)
Record Poll : Type := mkPoll {
  connected : bool;
  millis : Z
}.

(** How the wait ends: the loop is left, [fatalError] restarts the device,
    or the polls given so far have not decided. *)
Inductive Connection : Type := Connected | Restarted | StillWaiting.

Fixpoint waitForConnection (timeout : Z) (polls : list Poll) : Connection :=
  match polls with
  | [] => StillWaiting
  | p :: polls =>
      if connected p then Connected
      else if timeoutExpired timeout (millis p) then Restarted
      else waitForConnection timeout polls
  end.

(** [start] is the reading of [millis()] that starts the 30-second timer. *)
Definition connectToWiFiNetwork (start : Z) (polls : list Poll) : Connection :=
  waitForConnection (ulong_add start 30000) polls.

(** The same wait told in milliseconds elapsed since the timer was
    started, on a clock that does not wrap; the reference the loop is
    compared with. *)
Fixpoint waitByElapsed (seen : list (bool * Z)) : Connection :=
  match seen with
  | [] => StillWaiting
  | (is_connected, elapsed) :: seen =>
      if is_connected then Connected
      else if 30000 <=? elapsed then Restarted
      else waitByElapsed seen
  end.

(** The poll the device makes [elapsed] milliseconds after [start]. *)
Definition pollAfter (start : Z) (o : bool * Z) : Poll :=
  {| connected := fst o; millis := (start + snd o) mod ULONG_MOD |}.

(** [loop] of the NTP comparison sketch: the static [loopCount] and what
    has been written to [Serial]. *)
Record Dots : Type := mkDots {
  loopCount : Z;
  serial : string
}.

Definition CRLF : string :=
  String (Ascii.ascii_of_nat 13) (String (Ascii.ascii_of_nat 10) EmptyString).

Definition loop (s : Dots) : Dots :=
  if 250 <? loopCount s then s
  else
    let serial := (serial s ++ ".")%string in
    let loopCount := loopCount s + 1 in
    if Z.rem loopCount 50 =? 0 then
      {| loopCount := loopCount; serial := (serial ++ CRLF)%string |}
    else
      {| loopCount := loopCount; serial := serial |}.

Definition boot : Dots := {| loopCount := 0; serial := EmptyString |}.

Definition loops (n : nat) : Dots := Nat.iter n loop boot.

(** The number of dots in what was written. *)
Fixpoint dots (s : string) : nat :=
  match s with
  | EmptyString => 0%nat
  | String c s => ((if Ascii.eqb c "."%char then 1 else 0) + dots s)%nat
  end.

(** A line of [n] dots with its end of line. *)
Fixpoint dotted_line (n : nat) : string :=
  match n with
  | O => CRLF
  | S n => String "."%char (dotted_line n)
  end.

End Sketch.

(** ** Scenarios of the specification, run on the model *)

Example scenarioA_first_call :
  syntheticTime (NodeRedTime "http://host:1880/time/" 3600 1262304000) 7 exchangeA
  = Some (Fetched, {| ok := true; epoch := 1700000000; after := syncedA |}).
Proof. vm_compute. reflexivity. Qed.

Example scenarioA_second_call :
  syntheticTime syncedA 2200 exchangeA
  = Some (Extrapolated, {| ok := true; epoch := 1700000002; after := syncedA |}).
Proof. vm_compute. reflexivity. Qed.

Example scenarioC_negative_reply :
  serverTime (NodeRedTime "http://host:1880/time/" 3600 1262304000)
    exchangeMinus5
  = Some {| ok := false; epoch := 0;
            after := NodeRedTime "http://host:1880/time/" 3600 1262304000 |}.
Proof. vm_compute. reflexivity. Qed.

(** ** Facts about the conversions *)

Section Conversions.

Lemma Qtrunc_comp (x y : Q) : x == y -> Qtrunc x = Qtrunc y.
Proof.
  unfold Qeq, Qtrunc. destruct x as [n d], y as [m e]; simpl. intros H.
  rewrite <- (Z.quot_mul_cancel_r n (Zpos d) (Zpos e)) by lia.
  rewrite H, (Z.mul_comm (Zpos d) (Zpos e)).
  apply Z.quot_mul_cancel_r; lia.
Qed.

Lemma Qtrunc_inject_Z (z : Z) : Qtrunc (inject_Z z) = z.
Proof. unfold Qtrunc; simpl. apply Z.quot_1_r. Qed.

Lemma Qtrunc_integer (x : Q) (z : Z) : x == inject_Z z -> Qtrunc x = z.
Proof. intros H. rewrite (Qtrunc_comp _ _ H). apply Qtrunc_inject_Z. Qed.

Lemma Qtrunc_nonneg (x : Q) : (0 <= x)%Q -> Qtrunc x = Qfloor x.
Proof.
  destruct x as [n d]; unfold Qle, Qtrunc, Qfloor; simpl. intros H.
  apply Z.quot_div_nonneg; lia.
Qed.

Lemma Qtrunc_neg (x : Q) : Qtrunc x < 0 -> (x < 0)%Q.
Proof.
  destruct x as [n d]; unfold Qlt, Qtrunc; simpl. intros H.
  destruct (Z.lt_ge_cases n 0) as [Hn | Hn]; [lia |].
  pose proof (Z.quot_pos n (Zpos d) Hn ltac:(lia)). lia.
Qed.

Lemma convert_Some (lo hi : Z) (x : Q) (z : Z) :
  convert lo hi x = Some z -> z = Qtrunc x /\ lo <= z <= hi.
Proof.
  unfold convert. destruct (_ && _) eqn:E; [| discriminate].
  intros [= <-]. apply andb_true_iff in E. lia.
Qed.

Lemma convert_in_range (lo hi : Z) (x : Q) :
  lo <= Qtrunc x <= hi -> convert lo hi x = Some (Qtrunc x).
Proof.
  intros H. unfold convert.
  replace ((lo <=? Qtrunc x) && (Qtrunc x <=? hi)) with true; [reflexivity |].
  symmetry. apply andb_true_iff. lia.
Qed.

Lemma wrap_unsigned_in_range (z : Z) :
  0 <= z <= TIME_T_MAX -> wrap_unsigned z = z.
Proof.
  unfold wrap_unsigned, TIME_T_MAX. intros H. apply Z.mod_small. lia.
Qed.

Lemma wrap_unsigned_range (z : Z) : 0 <= wrap_unsigned z <= TIME_T_MAX.
Proof.
  unfold wrap_unsigned, TIME_T_MAX.
  pose proof (Z.mod_pos_bound z (2 ^ 32) ltac:(lia)). lia.
Qed.

Lemma wrap_signed_in_range (z : Z) :
  LONG_MIN <= z <= LONG_MAX -> wrap_signed z = z.
Proof.
  unfold wrap_signed, LONG_MIN, LONG_MAX. intros H.
  destruct (Z.lt_ge_cases z 0) as [Hneg | Hpos].
  - replace (z mod 2 ^ 32) with (z + 2 ^ 32).
    + replace (z + 2 ^ 32 <? 2 ^ 31) with false
        by (symmetry; apply Z.ltb_ge; lia).
      lia.
    + rewrite <- (Z_mod_plus_full z 1 (2 ^ 32)).
      rewrite Z.mod_small by lia. lia.
  - rewrite Z.mod_small by lia.
    replace (z <? 2 ^ 31) with true by (symmetry; apply Z.ltb_lt; lia).
    reflexivity.
Qed.

Lemma to_long_in_range (x : Q) :
  LONG_MIN <= Qtrunc x <= LONG_MAX -> to_long x = Qtrunc x.
Proof. apply wrap_signed_in_range. Qed.

Lemma to_time_t_in_range (x : Q) :
  0 <= Qtrunc x <= TIME_T_MAX -> to_time_t x = Qtrunc x.
Proof. apply wrap_unsigned_in_range. Qed.

(** In range, the seconds written are the floor of a value that is not
    negative. *)
Lemma to_time_t_floor (x : Q) :
  (0 <= x)%Q -> Qfloor x <= TIME_T_MAX -> to_time_t x = Qfloor x.
Proof.
  intros Hpos Hfits. rewrite to_time_t_in_range; rewrite (Qtrunc_nonneg _ Hpos).
  - reflexivity.
  - split; [| exact Hfits].
    change 0 with (Qfloor 0). apply Qfloor_resp_le. exact Hpos.
Qed.

(** A negative [(long)] of a value below 2^31 comes from a negative
    value. *)
Lemma to_long_neg (x : Q) :
  (x < inject_Z (2 ^ 31))%Q -> to_long x < 0 -> (x < 0)%Q.
Proof.
  intros Hhi Hneg.
  destruct (Qlt_le_dec x 0) as [Hlt | Hge]; [exact Hlt |].
  exfalso. unfold to_long in Hneg.
  assert (Hf : Qfloor x < 2 ^ 31).
  { rewrite Zlt_Qlt. apply Qle_lt_trans with x; [apply Qfloor_le | exact Hhi]. }
  assert (H0 : 0 <= Qfloor x).
  { change 0 with (Qfloor 0). apply Qfloor_resp_le. exact Hge. }
  rewrite (Qtrunc_nonneg x Hge) in Hneg.
  rewrite wrap_signed_in_range in Hneg; unfold LONG_MIN, LONG_MAX; lia.
Qed.

Lemma Qdiv_1000_nonneg (q : Q) : (0 <= q)%Q -> (0 <= q / 1000)%Q.
Proof. intros H. apply Qle_shift_div_l; [reflexivity | lra]. Qed.

Lemma Qtrunc_Zdiv (a b : Z) :
  0 <= a -> 0 < b -> Qtrunc (inject_Z a / inject_Z b) = a / b.
Proof.
  intros Ha Hb. rewrite Qtrunc_nonneg.
  - symmetry. apply Zdiv_Qdiv.
  - apply Qle_shift_div_l.
    + change 0%Q with (inject_Z 0). rewrite <- Zlt_Qlt. exact Hb.
    + setoid_replace (0 * inject_Z b)%Q with (inject_Z 0) by ring.
      rewrite <- Zle_Qle. exact Ha.
Qed.

(** The midpoint of two readings of [millis()] is an [unsigned long]. *)
Lemma midpoint_to_ulong (m0 m1 : Z) :
  is_ulong m0 -> is_ulong m1 ->
  to_ulong ((1 * inject_Z m0 + inject_Z m1) / 2)%Q = Some ((m0 + m1) / 2).
Proof.
  unfold is_ulong, ULONG_MAX. intros H0 H1.
  assert (H : Qtrunc ((1 * inject_Z m0 + inject_Z m1) / 2) = (m0 + m1) / 2).
  { rewrite <- (Qtrunc_Zdiv (m0 + m1) 2) by lia.
    apply Qtrunc_comp. rewrite inject_Z_plus.
    change (inject_Z 2) with 2%Q. field. }
  unfold to_ulong. rewrite convert_in_range; rewrite H; [reflexivity |].
  split; [apply Z.div_pos; lia |].
  apply Z.div_le_upper_bound; unfold ULONG_MAX; lia.
Qed.

Lemma Qgt_bool_true (x y : Q) : Qgt_bool x y = true <-> (y < x)%Q.
Proof.
  unfold Qgt_bool. rewrite negb_true_iff, <- not_true_iff_false, Qle_bool_iff.
  split; [apply Qnot_le_lt | apply Qlt_not_le].
Qed.

Lemma Qgt_bool_false (x y : Q) : Qgt_bool x y = false <-> (x <= y)%Q.
Proof.
  unfold Qgt_bool. rewrite negb_false_iff. apply Qle_bool_iff.
Qed.

End Conversions.

(** ** The two paths of each operation *)

Section Paths.

Variable self : t.
Variable x : Exchange.

(** A call of [serverTime] that returns either took the success path, and
    stored a reply that passes the validity test, or took the failure
    path. *)
Lemma serverTime_inv (o : Outcome) :
  serverTime self x = Some o ->
  (exists sync_ms,
      (_minEpoch_ms self <= received x)%Q
      /\ epoch o = to_time_t (received x / 1000)%Q
      /\ ok o = true
      /\ after o = set_sync self (received x) (1 * inject_Z sync_ms)%Q)
  \/ (ok o = false /\ epoch o = 0 /\ after o = set_epochLastSync self 0%Q).
Proof.
  unfold serverTime, received.
  destruct (begin_ok x); simpl;
    [destruct (to_ulong _) as [sync_ms |]; simpl; [| discriminate] |];
    (destruct (Qle_bool _ _) eqn:Hvalid;
     [ intros [= <-]; left; eexists;
       apply Qle_bool_iff in Hvalid; repeat split; eauto
     | intros [= <-]; right; auto ]).
Qed.

(** [serverTime] returns whenever the two readings of [millis()] are
    [unsigned long] values. *)
Lemma serverTime_returns :
  is_ulong (millis_before x) ->
  is_ulong (millis_after x) ->
  exists o, serverTime self x = Some o.
Proof.
  intros H0 H1. unfold serverTime.
  destruct (begin_ok x).
  - rewrite (midpoint_to_ulong _ _ H0 H1). cbn [bind].
    destruct (Qle_bool _ _); eexists; reflexivity.
  - cbn [bind]. destruct (Qle_bool _ _); eexists; reflexivity.
Qed.

Variable now : Z.

(** [syntheticTime] always returns on an instance whose exchange would let
    [serverTime] return. *)
Lemma syntheticTime_returns :
  is_ulong (millis_before x) ->
  is_ulong (millis_after x) ->
  exists r, syntheticTime self now x = Some r.
Proof.
  intros H0 H1. destruct (serverTime_returns H0 H1) as [o Ho].
  assert (Hfetch : exists r, viaServerTime self x = Some r).
  { unfold viaServerTime. rewrite Ho. eexists; reflexivity. }
  unfold syntheticTime.
  destruct (Qle_bool _ _); [| exact Hfetch].
  destruct (Qgt_bool _ _); [| exact Hfetch].
  destruct (_ <? 0); [eexists; reflexivity | exact Hfetch].
Qed.

Lemma syntheticTime_inv (p : Path) (o : Outcome) :
  syntheticTime self now x = Some (p, o) ->
  (p = Extrapolated
   /\ (_minEpoch_ms self <= _epochLastSync_ms self)%Q
   /\ (_uptimeLastSync_ms self < inject_Z now)%Q
   /\ to_long (1 * inject_Z now
               - (_uptimeLastSync_ms self + _recall_ms self))%Q < 0
   /\ epoch o = to_time_t
                  ((inject_Z now + _epochLastSync_ms self
                    - _uptimeLastSync_ms self) / 1000)%Q
   /\ ok o = true
   /\ after o = self)
  \/ (p = Fetched /\ serverTime self x = Some o).
Proof.
  assert (Hfetch : viaServerTime self x = Some (p, o) ->
                   p = Fetched /\ serverTime self x = Some o).
  { unfold viaServerTime. destruct (serverTime self x); simpl; [| discriminate].
    intros [= <- <-]. auto. }
  unfold syntheticTime.
  destruct (Qle_bool _ _) eqn:Hsynced; [| auto].
  destruct (Qgt_bool _ _) eqn:Hforward; [| auto].
  destruct (_ <? 0) eqn:Hneg; [| auto].
  intros [= <- <-]. left.
  apply Qle_bool_iff in Hsynced. apply Qgt_bool_true in Hforward.
  apply Z.ltb_lt in Hneg.
  assert (Hnow : (1 * inject_Z now == inject_Z now)%Q) by ring.
  repeat split; auto.
  - rewrite <- Hnow. exact Hforward.
  - simpl. unfold to_time_t. f_equal.
    apply Qtrunc_comp. rewrite Hnow. reflexivity.
Qed.

(** While the operand of the [(long)] cast is below 2^31, an answer by
    extrapolation means that less than [_recall_ms] has elapsed. *)
Lemma extrapolated_in_range_is_recent (o : Outcome) :
  syntheticTime self now x = Some (Extrapolated, o) ->
  (inject_Z now - _uptimeLastSync_ms self - _recall_ms self
   < inject_Z (2 ^ 31))%Q ->
  (inject_Z now - _uptimeLastSync_ms self < _recall_ms self)%Q.
Proof.
  intros Hcall Hrange.
  destruct (syntheticTime_inv _ _ Hcall)
    as [(_ & _ & _ & Hneg & _) | [Hp _]]; [| discriminate].
  apply to_long_neg in Hneg; lra.
Qed.

End Paths.

(** ** What a failed [serverTime] leaves behind *)

Section Failure.

Variable self : t.
Variable x : Exchange.
Variable o : Outcome.
Hypothesis Hcall : serverTime self x = Some o.
Hypothesis Hfail : ok o = false.

Lemma serverTime_failure_state : after o = set_epochLastSync self 0%Q.
Proof.
  destruct (serverTime_inv self x o Hcall) as [(sync & _ & _ & Hok & _) | H].
  - congruence.
  - apply H.
Qed.

Lemma serverTime_failure_epoch : epoch o = 0.
Proof.
  destruct (serverTime_inv self x o Hcall) as [(sync & _ & _ & Hok & _) | H].
  - congruence.
  - apply H.
Qed.

End Failure.

(** ** C1: poison-on-failure *)

(** C1, as stated, fails: an instance constructed with [minEpoch_s = 0] is
    synchronised, then a reply of [-5] makes [serverTime] fail; the next
    [syntheticTime], at [millis() = 2200], answers by extrapolation (and
    returns 2 seconds, computed from the sentinel and the old uptime). *)
Lemma poison_on_failure_zero_minEpoch :
  option_map (map summary)
    (run (NodeRedTime "http://host:1880/time/" 3600 0)
       [CallServerTime exchangeA; CallServerTime exchangeMinus5;
        CallSyntheticTime 2200 exchangeA])
  = Some [(Fetched, true, 1700000000); (Fetched, false, 0);
          (Extrapolated, true, 2)].
Proof. vm_compute. reflexivity. Qed.

(** C1 (amended): on an instance whose [_minEpoch_ms] is positive, after a
    call of [serverTime] that returns [false], the next [syntheticTime] does
    not extrapolate: whatever the clock reads, it is the call of
    [serverTime] on the state the failure left. *)
Theorem poison_on_failure (self : t) (x : Exchange) (o : Outcome) :
  (0 < _minEpoch_ms self)%Q ->
  serverTime self x = Some o ->
  ok o = false ->
  forall (now : Z) (x' : Exchange),
    syntheticTime (after o) now x' = viaServerTime (after o) x'.
Proof.
  intros Hmin Hcall Hfail now x'.
  rewrite (serverTime_failure_state self x o Hcall Hfail).
  unfold syntheticTime; simpl.
  destruct (Qle_bool (_minEpoch_ms self) 0) eqn:E; [| reflexivity].
  apply Qle_bool_iff in E. lra.
Qed.

Lemma poison_on_failure_witness :
  (0 < _minEpoch_ms syncedA)%Q
  /\ serverTime syncedA exchange404
     = Some {| ok := false; epoch := 0; after := set_epochLastSync syncedA 0 |}
  /\ syntheticTime (set_epochLastSync syncedA 0) 3600200 exchangeB
     = viaServerTime (set_epochLastSync syncedA 0) exchangeB.
Proof.
  split; [reflexivity |]. split; [reflexivity |].
  apply (poison_on_failure syncedA exchange404
           {| ok := false; epoch := 0; after := set_epochLastSync syncedA 0 |});
    reflexivity.
Defined.

(** ** C3: a counter that has not moved forward forces a fetch *)

(** C3: when the reading of [millis()] is not strictly greater than
    [_uptimeLastSync_ms] (the counter wrapped, or went backwards),
    [syntheticTime] does not extrapolate but delegates to [serverTime]. *)
Theorem wrap_forces_fetch (self : t) (now : Z) (x : Exchange) :
  (inject_Z now <= _uptimeLastSync_ms self)%Q ->
  syntheticTime self now x = viaServerTime self x.
Proof.
  intros Hback. unfold syntheticTime.
  destruct (Qle_bool _ _); [| reflexivity].
  replace (Qgt_bool (1 * inject_Z now) (_uptimeLastSync_ms self)) with false;
    [reflexivity |].
  symmetry. apply Qgt_bool_false.
  assert (Hnow : (1 * inject_Z now == inject_Z now)%Q) by ring.
  rewrite Hnow. exact Hback.
Qed.

Lemma wrap_forces_fetch_witness :
  (inject_Z 40 <= _uptimeLastSync_ms syncedA)%Q
  /\ syntheticTime syncedA 40 exchangeA
     = Some (Fetched,
             {| ok := true; epoch := 1700000000; after := syncedA |}).
Proof.
  split; [unfold Qle; simpl; lia |].
  rewrite (wrap_forces_fetch syncedA 40 exchangeA); [reflexivity |].
  unfold Qle; simpl; lia.
Defined.

(** ** C4: the resync boundary *)


(** ** Calls and runs *)

Section Calls.

Variable self : t.
Variable c : Call.
Variable p : Path.
Variable o : Outcome.
Hypothesis Hcall : call self c = Some (p, o).

(** A call answers from the cache, leaving the instance as it was, or
    through [serverTime]. *)
Lemma call_inv :
  (exists now x, c = CallSyntheticTime now x
                 /\ syntheticTime self now x = Some (Extrapolated, o)
                 /\ p = Extrapolated /\ ok o = true /\ after o = self)
  \/ (exists x, serverTime self x = Some o /\ p = Fetched).
Proof.
  destruct c as [x | now x]; simpl in Hcall.
  - right. exists x. unfold viaServerTime in Hcall.
    destruct (serverTime self x); simpl in Hcall; [| discriminate].
    injection Hcall as <- <-. auto.
  - destruct (syntheticTime_inv self x now p o Hcall)
      as [(-> & _ & _ & _ & _ & Hok & Hsame) | [-> Hs]].
    + left. exists now, x. auto.
    + right. exists x. auto.
Qed.

(** The configuration never changes. *)
Lemma call_config :
  _url (after o) = _url self
  /\ _recall_ms (after o) = _recall_ms self
  /\ _minEpoch_ms (after o) = _minEpoch_ms self.
Proof.
  destruct call_inv as [(now & x & _ & _ & _ & _ & ->) | (x & Hs & _)]; [auto |].
  destruct (serverTime_inv self x o Hs)
    as [(sync & _ & _ & _ & ->) | (_ & _ & ->)]; auto.
Qed.

End Calls.

Lemma reachable_config (init self : t) :
  reachable init self ->
  _recall_ms self = _recall_ms init /\ _minEpoch_ms self = _minEpoch_ms init.
Proof.
  induction 1 as [| self c p o _ [IHr IHm] Hcall]; [auto |].
  destruct (call_config self c p o Hcall) as (_ & Hr & Hm).
  split; congruence.
Qed.

Lemma run_reachable (init : t) (calls : list Call) :
  forall self evs,
    reachable init self ->
    run self calls = Some evs ->
    Forall (fun ev => reachable init (before ev)) evs.
Proof.
  induction calls as [| c calls IH]; intros self evs Hreach; simpl.
  - intros [= <-]. constructor.
  - destruct (call self c) as [[p o] |] eqn:Hcall; simpl; [| discriminate].
    destruct (run (after o) calls) as [evs' |] eqn:Hrun; simpl; [| discriminate].
    intros [= <-]. constructor; [exact Hreach |].
    apply (IH (after o)); [| exact Hrun].
    exact (reachable_call init self c p o Hreach Hcall).
Qed.

Lemma run_sound (calls : list Call) :
  forall self evs,
    run self calls = Some evs ->
    Forall (fun ev => call (before ev) (made ev) = Some (path ev, outcome ev))
           evs.
Proof.
  induction calls as [| c calls IH]; intros self evs; simpl.
  - intros [= <-]. constructor.
  - destruct (call self c) as [[p o] |] eqn:Hcall; simpl; [| discriminate].
    destruct (run (after o) calls) as [evs' |] eqn:Hrun; simpl; [| discriminate].
    intros [= <-]. constructor; [exact Hcall | exact (IH _ _ Hrun)].
Qed.

(** ** C2: never-stale bound *)

Example callsA_summary :
  option_map (map summary)
    (run (NodeRedTime "http://host:1880/time/" 3600 1262304000) callsA)
  = Some [(Fetched, true, 1700000000); (Extrapolated, true, 1700000002);
          (Extrapolated, true, 1700003599); (Fetched, false, 0);
          (Fetched, true, 1700003600); (Extrapolated, true, 1700003602)].
Proof. vm_compute. reflexivity. Qed.


(** ** C5: the failure path and the synchronisation pair *)

(** On the failure path [_epochLastSync_ms] becomes the sentinel and
    [_uptimeLastSync_ms] keeps the value it had. *)
Lemma serverTime_failure_frame (self : t) (x : Exchange) (o : Outcome) :
  serverTime self x = Some o ->
  ok o = false ->
  _epochLastSync_ms (after o) = 0%Q
  /\ _uptimeLastSync_ms (after o) = _uptimeLastSync_ms self.
Proof.
  intros Hcall Hfail.
  rewrite (serverTime_failure_state self x o Hcall Hfail). auto.
Qed.

(** C5 does not hold of the code: after a synchronisation at uptime 105, a
    call of [serverTime] that gets status 404 returns [false] with
    [_epochLastSync_ms = 0] and [_uptimeLastSync_ms] still 105, where the
    header promises that it "will only be non-zero if _epochLastSync_ms is
    also non-zero". *)
Theorem failure_keeps_uptimeLastSync :
  serverTime syncedA exchange404
  = Some {| ok := false; epoch := 0;
            after := {| _url := _url syncedA;
                        _recall_ms := _recall_ms syncedA;
                        _minEpoch_ms := _minEpoch_ms syncedA;
                        _epochLastSync_ms := 0%Q;
                        _uptimeLastSync_ms := 105%Q |} |}.
Proof. reflexivity. Qed.

(** ** C6: the failure sentinel *)

(** C6: whenever [serverTime] or [syntheticTime] returns [false], the value
    written through [epoch] is 0. *)
Theorem failure_sentinel (self : t) (c : Call) (p : Path) (o : Outcome) :
  call self c = Some (p, o) ->
  ok o = false ->
  epoch o = 0.
Proof.
  intros Hcall Hfail.
  destruct (call_inv self c p o Hcall)
    as [(now & x & _ & _ & _ & Hok & _) | (x & Hs & _)].
  - congruence.
  - exact (serverTime_failure_epoch self x o Hs Hfail).
Qed.

Lemma failure_sentinel_witness :
  call syncedA (CallSyntheticTime 3600105 exchange404)
  = Some (Fetched, {| ok := false; epoch := 0;
                      after := set_epochLastSync syncedA 0 |})
  /\ epoch {| ok := false; epoch := 0; after := set_epochLastSync syncedA 0 |}
     = 0.
Proof.
  split; [reflexivity |].
  apply (failure_sentinel syncedA (CallSyntheticTime 3600105 exchange404)
           Fetched); reflexivity.
Defined.

(** ** C7: the state invariant *)

(** C7: in every state reachable from a constructed instance by calls of
    [serverTime] and [syntheticTime], [_epochLastSync_ms] is the sentinel 0
    or at least [_minEpoch_ms]. *)
Theorem epochLastSync_invariant
    (url : string) (recall_s minEpoch_s : N) (self : t) :
  reachable (NodeRedTime url recall_s minEpoch_s) self ->
  sentinel_or_valid self.
Proof.
  induction 1 as [| self c p o _ IH Hcall].
  - left. reflexivity.
  - destruct (call_inv self c p o Hcall)
      as [(now & x & _ & _ & _ & _ & ->) | (x & Hs & _)]; [exact IH |].
    destruct (serverTime_inv self x o Hs)
      as [(sync & Hvalid & _ & _ & ->) | (_ & _ & ->)].
    + right. exact Hvalid.
    + left. reflexivity.
Qed.

Lemma epochLastSync_invariant_witness :
  sentinel_or_valid syncedA /\ sentinel_or_valid (set_epochLastSync syncedA 0).
Proof.
  assert (H1 : reachable (NodeRedTime "http://host:1880/time/" 3600 1262304000)
                 syncedA).
  { exact (reachable_call (NodeRedTime "http://host:1880/time/" 3600 1262304000)
             (NodeRedTime "http://host:1880/time/" 3600 1262304000)
             (CallSyntheticTime 7 exchangeA) Fetched
             {| ok := true; epoch := 1700000000; after := syncedA |}
             (reachable_init _) eq_refl). }
  split.
  - exact (epochLastSync_invariant _ _ _ _ H1).
  - apply (epochLastSync_invariant "http://host:1880/time/" 3600 1262304000).
    exact (reachable_call _ syncedA (CallServerTime exchange404) Fetched
             {| ok := false; epoch := 0; after := set_epochLastSync syncedA 0 |}
             H1 eq_refl).
Defined.

(** ** C8: the constructor clamps the resync interval *)

(** C8: constructing with [recall_s = 0] gives [_recall_ms = 60000], with
    [recall_s = 999999] it gives [14400000]; in general [_recall_ms] is 1000
    times [recall_s] clipped to the range 60..14400. *)
Theorem constructor_clamp (url : string) (recall_s minEpoch_s : N) :
  _recall_ms (NodeRedTime url 0 minEpoch_s) = 60000%Q
  /\ _recall_ms (NodeRedTime url 999999 minEpoch_s) = 14400000%Q
  /\ exists s : N,
       _recall_ms (NodeRedTime url recall_s minEpoch_s)
       = inject_Z (1000 * Z.of_N s)
       /\ (60 <= s <= 14400)%N
       /\ ((recall_s < 60)%N -> s = 60%N)
       /\ ((60 <= recall_s <= 14400)%N -> s = recall_s)
       /\ ((14400 < recall_s)%N -> s = 14400%N).
Proof.
  split; [reflexivity |]. split; [reflexivity |].
  exists (N.min (N.max recall_s 60) 14400).
  split; [reflexivity |]. lia.
Qed.

(** ** C9: truncation to whole seconds *)

Lemma constructed_minEpoch_nonneg (url : string) (recall_s minEpoch_s : N) :
  (0 <= _minEpoch_ms (NodeRedTime url recall_s minEpoch_s))%Q.
Proof.
  change (0 <= 1000 * inject_Z (Z.of_N minEpoch_s))%Q.
  assert (H : (inject_Z 0 <= inject_Z (Z.of_N minEpoch_s))%Q)
    by (rewrite <- Zle_Qle; lia).
  change (inject_Z 0) with 0%Q in H. lra.
Qed.

(** C9, as stated, fails: a reply of 5000000000000 ms passes the validity
    test and [serverTime] returns [true], but the seconds, 5000000000, do
    not fit the 32-bit [time_t]; what is written through [epoch] is their
    low 32 bits, 705032704, not the floor of the milliseconds over 1000. *)
Lemma truncation_fails_beyond_time_t :
  serverTime (NodeRedTime "http://host:1880/time/" 3600 1262304000) exchange2128
  = Some {| ok := true; epoch := 705032704;
            after := set_sync
                       (NodeRedTime "http://host:1880/time/" 3600 1262304000)
                       5000000000000 105 |}
  /\ Qfloor (received exchange2128 / 1000) = 5000000000.
Proof. split; vm_compute; reflexivity. Qed.

(** C9 (amended): on any instance that construction and calls can produce,
    the seconds that a successful [serverTime] returns are the floor of the
    received milliseconds over 1000 whenever that floor fits [time_t]; and
    the seconds that [syntheticTime] returns by extrapolation are the floor
    of the extrapolated milliseconds,
    [now + _epochLastSync_ms - _uptimeLastSync_ms], over 1000 whenever
    [_epochLastSync_ms] is a whole number of milliseconds and that floor
    fits [time_t].  In neither case is the value rounded. *)
Theorem truncation_to_whole_seconds
    (url : string) (recall_s minEpoch_s : N) (self : t) :
  reachable (NodeRedTime url recall_s minEpoch_s) self ->
  (forall x o,
      serverTime self x = Some o ->
      ok o = true ->
      Qfloor (received x / 1000) <= TIME_T_MAX ->
      epoch o = Qfloor (received x / 1000))
  /\ (forall now x o e,
         syntheticTime self now x = Some (Extrapolated, o) ->
         (_epochLastSync_ms self == inject_Z e)%Q ->
         Qfloor (extrapolated_ms self now / 1000) <= TIME_T_MAX ->
         epoch o = Qfloor (extrapolated_ms self now / 1000)).
Proof.
  intros Hreach.
  assert (Hmin : (0 <= _minEpoch_ms self)%Q).
  { destruct (reachable_config _ _ Hreach) as [_ ->].
    apply constructed_minEpoch_nonneg. }
  split.
  - intros x o Hcall Hok Hfits.
    destruct (serverTime_inv self x o Hcall)
      as [(sync & Hvalid & He & _ & _) | (Hfail & _)]; [| congruence].
    rewrite He. apply to_time_t_floor; [| exact Hfits].
    apply Qdiv_1000_nonneg. lra.
  - intros now x o e Hcall _ Hfits.
    destruct (syntheticTime_inv self x now _ _ Hcall)
      as [(_ & Hsynced & Hforward & _ & He & _) | [Hp _]]; [| discriminate].
    rewrite He. fold (extrapolated_ms self now).
    apply to_time_t_floor; [| exact Hfits].
    apply Qdiv_1000_nonneg. unfold extrapolated_ms. lra.
Qed.

Lemma truncation_to_whole_seconds_witness :
  serverTime syncedA exchange999
  = Some {| ok := true; epoch := 1700000000;
            after := set_sync syncedA 1700000000999 105 |}
  /\ 1700000000 = Qfloor (received exchange999 / 1000)
  /\ syntheticTime (set_sync syncedA 1700000000999 105) 1105 exchangeA
     = Some (Extrapolated,
             {| ok := true; epoch := 1700000001;
                after := set_sync syncedA 1700000000999 105 |})
  /\ 1700000001
     = Qfloor (extrapolated_ms (set_sync syncedA 1700000000999 105) 1105
               / 1000).
Proof.
  assert (H1 : reachable (NodeRedTime "http://host:1880/time/" 3600 1262304000)
                 (set_sync syncedA 1700000000999 105)).
  { exact (reachable_call (NodeRedTime "http://host:1880/time/" 3600 1262304000)
             (NodeRedTime "http://host:1880/time/" 3600 1262304000)
             (CallServerTime exchange999) Fetched
             {| ok := true; epoch := 1700000000;
                after := set_sync syncedA 1700000000999 105 |}
             (reachable_init _) eq_refl). }
  split; [reflexivity |]. split; [| split; [reflexivity |]].
  - apply (proj1 (truncation_to_whole_seconds _ _ _ _ H1) exchange999
             {| ok := true; epoch := 1700000000;
                after := set_sync syncedA 1700000000999 105 |});
      [reflexivity | reflexivity | discriminate].
  - apply (proj2 (truncation_to_whole_seconds _ _ _ _ H1) 1105 exchangeA
             {| ok := true; epoch := 1700000001;
                after := set_sync syncedA 1700000000999 105 |}
             1700000000999);
      [reflexivity | reflexivity | discriminate].
Defined.

(** ** C10: the sentinel test when [minEpoch_s] is zero *)

Section ZeroMinEpoch.

Variable url : string.
Variable recall_s : N.
Variable now : Z.
Variable x : Exchange.

Let fresh : t := NodeRedTime url recall_s 0.
Let clipped : Z := Z.of_N (N.min (N.max recall_s 60) 14400).

Hypothesis Hpos : 0 < now.
Hypothesis Hrecent : (inject_Z now < _recall_ms fresh)%Q.

Lemma fresh_now_bound : now < 1000 * clipped /\ 60 <= clipped <= 14400.
Proof.
  change (_recall_ms fresh) with (inject_Z (1000 * clipped)) in Hrecent.
  rewrite <- Zlt_Qlt in Hrecent. unfold clipped in *. lia.
Qed.

Lemma fresh_elapsed_test :
  to_long (1 * inject_Z now
           - (_uptimeLastSync_ms fresh + _recall_ms fresh))%Q
  = now - 1000 * clipped.
Proof.
  assert (H : Qtrunc (1 * inject_Z now
                      - (_uptimeLastSync_ms fresh + _recall_ms fresh))
              = now - 1000 * clipped).
  { apply Qtrunc_integer.
    change (_uptimeLastSync_ms fresh) with 0%Q.
    change (_recall_ms fresh) with (1000 * inject_Z clipped)%Q.
    unfold Z.sub. rewrite inject_Z_plus, inject_Z_opp, inject_Z_mult.
    change (inject_Z 1000) with 1000%Q. ring. }
  rewrite to_long_in_range; rewrite H; [reflexivity |].
  pose proof fresh_now_bound. unfold LONG_MIN, LONG_MAX. lia.
Qed.

Lemma fresh_extrapolated_seconds :
  to_time_t ((1 * inject_Z now + _epochLastSync_ms fresh
              - _uptimeLastSync_ms fresh) / 1000)%Q
  = now / 1000.
Proof.
  assert (H : Qtrunc ((1 * inject_Z now + _epochLastSync_ms fresh
                       - _uptimeLastSync_ms fresh) / 1000) = now / 1000).
  { rewrite <- (Qtrunc_Zdiv now 1000) by lia.
    apply Qtrunc_comp.
    change (_epochLastSync_ms fresh) with 0%Q.
    change (_uptimeLastSync_ms fresh) with 0%Q.
    change (inject_Z 1000) with 1000%Q. field. }
  rewrite to_time_t_in_range; rewrite H; [reflexivity |].
  pose proof fresh_now_bound.
  assert (0 <= now / 1000 <= now) by
    (split; [apply Z.div_pos; lia | apply Z.div_le_upper_bound; lia]).
  unfold TIME_T_MAX. lia.
Qed.

Lemma fresh_zero_extrapolates :
  syntheticTime fresh now x
  = Some (Extrapolated,
          {| ok := true; epoch := now / 1000; after := fresh |}).
Proof.
  unfold syntheticTime.
  replace (Qle_bool (_minEpoch_ms fresh) (_epochLastSync_ms fresh))
    with true by reflexivity.
  replace (Qgt_bool (1 * inject_Z now) (_uptimeLastSync_ms fresh)) with true.
  - rewrite fresh_elapsed_test; cbv zeta.
    replace (now - 1000 * clipped <? 0) with true.
    + rewrite fresh_extrapolated_seconds. reflexivity.
    + symmetry. apply Z.ltb_lt. pose proof fresh_now_bound. lia.
  - symmetry. apply Qgt_bool_true.
    change (_uptimeLastSync_ms fresh) with 0%Q.
    assert (H : (inject_Z 0 < inject_Z now)%Q) by (rewrite <- Zlt_Qlt; lia).
    change (inject_Z 0) with 0%Q in H. lra.
Qed.

End ZeroMinEpoch.

(** With a positive [minEpoch_s] the sentinel fails the first test. *)
Lemma fresh_positive_fetches
    (url : string) (recall_s minEpoch_s : N) (now : Z) (x : Exchange) :
  minEpoch_s <> 0%N ->
  syntheticTime (NodeRedTime url recall_s minEpoch_s) now x
  = viaServerTime (NodeRedTime url recall_s minEpoch_s) x.
Proof.
  intros Hm. unfold syntheticTime.
  destruct (Qle_bool _ _) eqn:E; [| reflexivity].
  apply Qle_bool_iff in E.
  change (1000 * inject_Z (Z.of_N minEpoch_s) <= 0)%Q in E.
  assert (H : (inject_Z 0 < inject_Z (Z.of_N minEpoch_s))%Q)
    by (rewrite <- Zlt_Qlt; lia).
  change (inject_Z 0) with 0%Q in H. lra.
Qed.

(** C10: on a never-synchronised instance constructed with
    [minEpoch_s = 0], a call of [syntheticTime] at a clock reading [now]
    with [0 < now < _recall_ms] performs no fetch and returns [true] with
    [now / 1000], the uptime in seconds; with any other [minEpoch_s] the same
    call goes to [serverTime]. *)
Theorem zero_minEpoch_edge
    (url : string) (recall_s minEpoch_s : N) (now : Z) (x : Exchange) :
  0 < now ->
  (inject_Z now < _recall_ms (NodeRedTime url recall_s minEpoch_s))%Q ->
  (minEpoch_s = 0%N ->
   syntheticTime (NodeRedTime url recall_s minEpoch_s) now x
   = Some (Extrapolated,
           {| ok := true; epoch := now / 1000;
              after := NodeRedTime url recall_s minEpoch_s |}))
  /\ (minEpoch_s <> 0%N ->
      syntheticTime (NodeRedTime url recall_s minEpoch_s) now x
      = viaServerTime (NodeRedTime url recall_s minEpoch_s) x).
Proof.
  intros Hpos Hrecent. split.
  - intros ->. apply fresh_zero_extrapolates; assumption.
  - apply fresh_positive_fetches.
Qed.

Lemma zero_minEpoch_edge_witness :
  0 < 59999
  /\ (inject_Z 59999 < _recall_ms (NodeRedTime "http://host:1880/time/" 0 0))%Q
  /\ syntheticTime (NodeRedTime "http://host:1880/time/" 0 0) 59999 exchange404
     = Some (Extrapolated,
             {| ok := true; epoch := 59;
                after := NodeRedTime "http://host:1880/time/" 0 0 |}).
Proof.
  split; [reflexivity |]. split; [reflexivity |].
  exact (proj1 (zero_minEpoch_edge "http://host:1880/time/" 0 0 59999
                  exchange404 eq_refl eq_refl) eq_refl).
Defined.

(** * Further properties of the class *)

(** ** The paths of [serverTime], as equations *)

Section ServerTimePaths.

Variable self : t.
Variable x : Exchange.
Hypothesis Hbefore : is_ulong (millis_before x).
Hypothesis Hafter : is_ulong (millis_after x).

(** [serverTime] as one test on [received x]. *)
Lemma serverTime_unfold :
  serverTime self x
  = (if Qle_bool (_minEpoch_ms self) (received x) then
       Some {| ok := true; epoch := to_time_t (received x / 1000)%Q;
               after := set_sync self (received x)
                          (1 * inject_Z (if begin_ok x then midpoint x else 0))%Q |}
     else
       Some {| ok := false; epoch := 0; after := set_epochLastSync self 0%Q |}).
Proof.
  unfold serverTime, received, midpoint. destruct (begin_ok x).
  - rewrite (midpoint_to_ulong _ _ Hbefore Hafter). reflexivity.
  - reflexivity.
Qed.

Lemma serverTime_invalid :
  (received x < _minEpoch_ms self)%Q ->
  serverTime self x
  = Some {| ok := false; epoch := 0; after := set_epochLastSync self 0%Q |}.
Proof.
  intros Hlow. rewrite serverTime_unfold.
  destruct (Qle_bool _ _) eqn:E; [| reflexivity].
  apply Qle_bool_iff in E. lra.
Qed.

Lemma serverTime_valid :
  (0 <= received x)%Q ->
  (_minEpoch_ms self <= received x)%Q ->
  Qfloor (received x / 1000) <= TIME_T_MAX ->
  serverTime self x
  = Some {| ok := true; epoch := Qfloor (received x / 1000);
            after := set_sync self (received x)
                       (1 * inject_Z (if begin_ok x then midpoint x else 0))%Q |}.
Proof.
  intros Hpos Hvalid Hfits. rewrite serverTime_unfold.
  replace (Qle_bool (_minEpoch_ms self) (received x)) with true
    by (symmetry; apply Qle_bool_iff; exact Hvalid).
  pose proof (Qdiv_1000_nonneg _ Hpos) as Hq.
  rewrite (to_time_t_floor _ Hq Hfits). reflexivity.
Qed.

End ServerTimePaths.

Lemma midpoint_between (x : Exchange) :
  Z.min (millis_before x) (millis_after x) <= midpoint x
  /\ midpoint x <= Z.max (millis_before x) (millis_after x).
Proof.
  unfold midpoint.
  pose proof (Z.div_mod (millis_before x + millis_after x) 2 ltac:(lia)).
  pose proof (Z.mod_pos_bound (millis_before x + millis_after x) 2 ltac:(lia)).
  lia.
Qed.

(** X3: a reply with status 200 whose value is at least [_minEpoch_ms] and
    whose seconds fit [time_t] makes [serverTime] return [true] with the
    floor of the reply over 1000, store the reply, and date the
    synchronisation at the mean of the two readings of [millis()], which
    lies between them. *)
Theorem serverTime_success (self : t) (x : Exchange) :
  is_ulong (millis_before x) ->
  is_ulong (millis_after x) ->
  begin_ok x = true ->
  httpCode x = HTTP_CODE_OK ->
  (0 <= _minEpoch_ms self)%Q ->
  (_minEpoch_ms self <= reply x)%Q ->
  Qfloor (reply x / 1000) <= TIME_T_MAX ->
  serverTime self x
  = Some {| ok := true; epoch := Qfloor (reply x / 1000);
            after := set_sync self (reply x) (1 * inject_Z (midpoint x))%Q |}
  /\ Z.min (millis_before x) (millis_after x) <= midpoint x
     <= Z.max (millis_before x) (millis_after x).
Proof.
  intros H0 H1 Hb Hc Hmin Hvalid Hfits. split; [| apply midpoint_between].
  assert (Hr : received x = reply x).
  { unfold received. rewrite Hb, Hc. reflexivity. }
  rewrite (serverTime_valid self x H0 H1); rewrite Hr;
    [rewrite Hb; reflexivity | lra | exact Hvalid | exact Hfits].
Qed.

Lemma serverTime_success_witness :
  serverTime syncedA exchangeB
  = Some {| ok := true; epoch := 1700003600;
            after := set_sync syncedA 1700003600100 3600205 |}
  /\ 3600200 <= midpoint exchangeB <= 3600210.
Proof.
  apply (serverTime_success syncedA exchangeB);
    [unfold is_ulong, ULONG_MAX; simpl; lia
    | unfold is_ulong, ULONG_MAX; simpl; lia
    | reflexivity | reflexivity | discriminate | discriminate | discriminate].
Defined.

(** X4: on an instance with a positive [_minEpoch_ms], a connection that
    cannot be opened, a status other than 200, and a reply below
    [_minEpoch_ms] all end the same way: [serverTime] returns [false], writes
    0 through [epoch], and resets [_epochLastSync_ms] to the sentinel. *)
Theorem serverTime_failure (self : t) (x : Exchange) :
  is_ulong (millis_before x) ->
  is_ulong (millis_after x) ->
  (0 < _minEpoch_ms self)%Q ->
  begin_ok x = false \/ httpCode x <> HTTP_CODE_OK
  \/ (reply x < _minEpoch_ms self)%Q ->
  serverTime self x
  = Some {| ok := false; epoch := 0; after := set_epochLastSync self 0%Q |}.
Proof.
  intros H0 H1 Hmin Hwhy. apply (serverTime_invalid self x H0 H1).
  unfold received. destruct Hwhy as [-> | [Hcode | Hlow]]; [exact Hmin | |].
  - apply Z.eqb_neq in Hcode. rewrite Hcode. destruct (begin_ok x); exact Hmin.
  - destruct (begin_ok x); [| exact Hmin].
    destruct (httpCode x =? HTTP_CODE_OK); [exact Hlow | exact Hmin].
Qed.

Lemma serverTime_failure_witness :
  serverTime syncedA exchange404
  = Some {| ok := false; epoch := 0; after := set_epochLastSync syncedA 0 |}
  /\ serverTime syncedA exchangeMinus5
     = Some {| ok := false; epoch := 0; after := set_epochLastSync syncedA 0 |}.
Proof.
  split.
  - apply (serverTime_failure syncedA exchange404);
      [unfold is_ulong, ULONG_MAX; simpl; lia
      | unfold is_ulong, ULONG_MAX; simpl; lia
      | reflexivity
      | right; left; discriminate].
  - apply (serverTime_failure syncedA exchangeMinus5);
      [unfold is_ulong, ULONG_MAX; simpl; lia
      | unfold is_ulong, ULONG_MAX; simpl; lia
      | reflexivity
      | right; right; reflexivity].
Defined.

(** X5: on an instance whose [_minEpoch_ms] is zero, a connection that
    cannot be opened or a status other than 200 is not reported as a
    failure: [serverTime] returns [true] with 0 seconds and records a
    synchronisation whose epoch is 0. *)
Theorem serverTime_zero_minEpoch_masks_failure (self : t) (x : Exchange) :
  is_ulong (millis_before x) ->
  is_ulong (millis_after x) ->
  (_minEpoch_ms self == 0)%Q ->
  begin_ok x = false \/ httpCode x <> HTTP_CODE_OK ->
  serverTime self x
  = Some {| ok := true; epoch := 0;
            after := set_sync self 0
                       (1 * inject_Z (if begin_ok x then midpoint x else 0))%Q |}.
Proof.
  intros H0 H1 Hmin Hwhy.
  assert (Hr : received x = 0%Q).
  { unfold received. destruct Hwhy as [-> | Hcode]; [reflexivity |].
    apply Z.eqb_neq in Hcode. rewrite Hcode. destruct (begin_ok x); reflexivity. }
  rewrite (serverTime_valid self x H0 H1); rewrite Hr.
  - reflexivity.
  - discriminate.
  - rewrite Hmin. discriminate.
  - discriminate.
Qed.

Lemma serverTime_zero_minEpoch_masks_failure_witness :
  serverTime (NodeRedTime "http://host:1880/time/" 3600 0) exchange404
  = Some {| ok := true; epoch := 0;
            after := set_sync (NodeRedTime "http://host:1880/time/" 3600 0)
                       0 3600115 |}.
Proof.
  apply (serverTime_zero_minEpoch_masks_failure
           (NodeRedTime "http://host:1880/time/" 3600 0) exchange404);
    [unfold is_ulong, ULONG_MAX; simpl; lia
    | unfold is_ulong, ULONG_MAX; simpl; lia
    | reflexivity
    | right; discriminate].
Defined.

(** ** What every reachable instance satisfies *)

(** X1: the configuration of an instance ([_url], [_recall_ms],
    [_minEpoch_ms]) is the same in every state that calls of [serverTime]
    and [syntheticTime] can reach, and for a constructed instance
    [_recall_ms] stays between 60000 and 14400000. *)
Theorem configuration_is_immutable
    (url : string) (recall_s minEpoch_s : N) (self : t) :
  reachable (NodeRedTime url recall_s minEpoch_s) self ->
  _url self = url
  /\ _recall_ms self = (1000 * inject_Z (clipped_recall_s recall_s))%Q
  /\ _minEpoch_ms self = (1000 * inject_Z (Z.of_N minEpoch_s))%Q
  /\ (60000 <= _recall_ms self <= 14400000)%Q.
Proof.
  induction 1 as [| self c p o _ (IHu & IHr & IHm & IHb) Hcall].
  - repeat split; try reflexivity.
    + change (inject_Z 60000 <= inject_Z (1000 * clipped_recall_s recall_s))%Q.
      rewrite <- Zle_Qle. unfold clipped_recall_s. lia.
    + change (inject_Z (1000 * clipped_recall_s recall_s) <= inject_Z 14400000)%Q.
      rewrite <- Zle_Qle. unfold clipped_recall_s. lia.
  - destruct (call_config self c p o Hcall) as (Hu & Hr & Hm).
    rewrite Hu, Hr, Hm. auto.
Qed.

Lemma configuration_is_immutable_witness :
  _url (set_epochLastSync syncedA 0) = "http://host:1880/time/"%string
  /\ _recall_ms (set_epochLastSync syncedA 0)
     = (1000 * inject_Z (clipped_recall_s 3600))%Q
  /\ _minEpoch_ms (set_epochLastSync syncedA 0)
     = (1000 * inject_Z (Z.of_N 1262304000))%Q
  /\ (60000 <= _recall_ms (set_epochLastSync syncedA 0) <= 14400000)%Q.
Proof.
  apply (configuration_is_immutable "http://host:1880/time/" 3600 1262304000).
  apply (reachable_call _ syncedA (CallServerTime exchange404) Fetched
           {| ok := false; epoch := 0; after := set_epochLastSync syncedA 0 |});
    [| reflexivity].
  exact (reachable_call (NodeRedTime "http://host:1880/time/" 3600 1262304000)
           (NodeRedTime "http://host:1880/time/" 3600 1262304000)
           (CallSyntheticTime 7 exchangeA) Fetched
           {| ok := true; epoch := 1700000000; after := syncedA |}
           (reachable_init _) eq_refl).
Defined.

(** A successful [serverTime] dates the synchronisation at a value that the
    conversion to [unsigned long] produced, or at 0. *)
Lemma serverTime_success_inv (self : t) (x : Exchange) (o : Outcome) :
  serverTime self x = Some o ->
  ok o = true ->
  exists sync_ms : Z,
    is_ulong sync_ms
    /\ (_minEpoch_ms self <= received x)%Q
    /\ epoch o = to_time_t (received x / 1000)%Q
    /\ after o = set_sync self (received x) (1 * inject_Z sync_ms)%Q.
Proof.
  assert (Htail : forall sync_ms : Z,
             is_ulong sync_ms ->
             (if Qle_bool (_minEpoch_ms self) (received x) then
                Some {| ok := true; epoch := to_time_t (received x / 1000)%Q;
                        after := set_sync self (received x)
                                   (1 * inject_Z sync_ms)%Q |}
              else
                Some {| ok := false; epoch := 0;
                        after := set_epochLastSync self 0%Q |}) = Some o ->
             ok o = true ->
             exists sync_ms : Z,
               is_ulong sync_ms
               /\ (_minEpoch_ms self <= received x)%Q
               /\ epoch o = to_time_t (received x / 1000)%Q
               /\ after o = set_sync self (received x) (1 * inject_Z sync_ms)%Q).
  { intros sync_ms Hrange. destruct (Qle_bool _ _) eqn:Hvalid.
    - intros [= <-] _. exists sync_ms. apply Qle_bool_iff in Hvalid. auto.
    - intros [= <-]. discriminate. }
  revert Htail. unfold serverTime, received. destruct (begin_ok x).
  - destruct (to_ulong _) as [sync_ms |] eqn:Hs; cbn [bind]; [| discriminate].
    intros Htail. apply Htail. apply convert_Some in Hs. apply Hs.
  - cbn [bind]. intros Htail. apply Htail. unfold is_ulong, ULONG_MAX. lia.
Qed.

Lemma serverTime_integral_sync (self : t) (x : Exchange) (o : Outcome) :
  (0 <= _minEpoch_ms self)%Q ->
  integral_sync self ->
  serverTime self x = Some o ->
  integral_sync (after o).
Proof.
  intros Hmin [Hup Hep] Hcall. destruct (ok o) eqn:Hok.
  - destruct (serverTime_success_inv self x o Hcall Hok)
      as (sync_ms & Hrange & Hvalid & _ & ->).
    split; simpl; [exists sync_ms; auto | lra].
  - rewrite (serverTime_failure_state self x o Hcall Hok).
    split; simpl; [exact Hup | discriminate].
Qed.

Lemma reachable_integral_sync
    (url : string) (recall_s minEpoch_s : N) (self : t) :
  reachable (NodeRedTime url recall_s minEpoch_s) self ->
  integral_sync self.
Proof.
  intros Hreach.
  induction Hreach as [| self c p o Hreach IH Hcall].
  - split; [| discriminate].
    exists 0. split; [reflexivity | unfold is_ulong, ULONG_MAX; lia].
  - destruct (call_inv self c p o Hcall)
      as [(now & x & _ & _ & _ & _ & ->) | (x & Hs & _)]; [exact IH |].
    apply (serverTime_integral_sync self x o); [| exact IH | exact Hs].
    destruct (reachable_config _ _ Hreach) as [_ ->].
    apply constructed_minEpoch_nonneg.
Qed.

(** X2: in every state reachable from a constructed instance,
    [_uptimeLastSync_ms] is a whole number of milliseconds in the range of
    [unsigned long], and [_epochLastSync_ms] is not negative. *)
Theorem sync_point_is_integral
    (url : string) (recall_s minEpoch_s : N) (self : t) :
  reachable (NodeRedTime url recall_s minEpoch_s) self ->
  (exists u : Z, (_uptimeLastSync_ms self == inject_Z u)%Q
                 /\ 0 <= u <= ULONG_MAX)
  /\ (0 <= _epochLastSync_ms self)%Q.
Proof.
  intros Hreach.
  destruct (reachable_integral_sync _ _ _ _ Hreach) as [(u & Hu & Hrange) Hep].
  split; [| exact Hep]. exists u. split; [| exact Hrange].
  rewrite Hu. ring.
Qed.

Lemma sync_point_is_integral_witness :
  (exists u : Z, (_uptimeLastSync_ms syncedA == inject_Z u)%Q
                 /\ 0 <= u <= ULONG_MAX)
  /\ (0 <= _epochLastSync_ms syncedA)%Q.
Proof.
  apply (sync_point_is_integral "http://host:1880/time/" 3600 1262304000).
  exact (reachable_call (NodeRedTime "http://host:1880/time/" 3600 1262304000)
           (NodeRedTime "http://host:1880/time/" 3600 1262304000)
           (CallSyntheticTime 7 exchangeA) Fetched
           {| ok := true; epoch := 1700000000; after := syncedA |}
           (reachable_init _) eq_refl).
Defined.

(** ** Answers made from the cached pair *)

Lemma Qtrunc_le_mono (q r : Q) : (q <= r)%Q -> Qtrunc q <= Qtrunc r.
Proof.
  destruct q as [a b], r as [c d]; unfold Qle, Qtrunc; simpl. intros H.
  rewrite <- (Z.quot_mul_cancel_r a (Zpos b) (Zpos d)) by lia.
  rewrite <- (Z.quot_mul_cancel_r c (Zpos d) (Zpos b)) by lia.
  rewrite (Z.mul_comm (Zpos d) (Zpos b)).
  apply Z.quot_le_mono; lia.
Qed.

Lemma Qdiv_1000_le (q r : Q) : (q <= r)%Q -> (q / 1000 <= r / 1000)%Q.
Proof.
  intros H. apply Qle_shift_div_l; [reflexivity |].
  setoid_replace (q / 1000 * 1000)%Q with q by field. exact H.
Qed.

Lemma extrapolated_ms_eq (self : t) (now : Z) :
  ((1 * inject_Z now + _epochLastSync_ms self - _uptimeLastSync_ms self) / 1000
   == extrapolated_ms self now / 1000)%Q.
Proof. unfold extrapolated_ms. field. Qed.

(** What the extrapolation path returns, and when it is taken, on an
    instance whose uptime and interval are whole milliseconds. *)
Lemma extrapolation_path (self : t) (now : Z) (x : Exchange) (u s : Z) :
  _uptimeLastSync_ms self = (1 * inject_Z u)%Q ->
  _recall_ms self = (1000 * inject_Z s)%Q ->
  0 <= s <= 14400 ->
  (_minEpoch_ms self <= _epochLastSync_ms self)%Q ->
  (0 <= _epochLastSync_ms self)%Q ->
  u < now < u + 1000 * s ->
  Qfloor (extrapolated_ms self now / 1000) <= TIME_T_MAX ->
  syntheticTime self now x
  = Some (Extrapolated,
          {| ok := true; epoch := Qfloor (extrapolated_ms self now / 1000);
             after := self |}).
Proof.
  intros Hu Hs Hclip Hsynced Hpos Hnow Hfits.
  assert (Hforward : (inject_Z u < inject_Z now)%Q) by (rewrite <- Zlt_Qlt; lia).
  assert (Hd : Qtrunc (1 * inject_Z now
                       - (_uptimeLastSync_ms self + _recall_ms self))
               = now - u - 1000 * s).
  { apply Qtrunc_integer. rewrite Hu, Hs. unfold Z.sub.
    rewrite !inject_Z_plus, !inject_Z_opp, inject_Z_mult.
    change (inject_Z 1000) with 1000%Q. ring. }
  assert (Hq : (0 <= extrapolated_ms self now / 1000)%Q).
  { apply Qdiv_1000_nonneg. unfold extrapolated_ms. rewrite Hu. lra. }
  unfold syntheticTime.
  replace (Qle_bool (_minEpoch_ms self) (_epochLastSync_ms self)) with true
    by (symmetry; apply Qle_bool_iff; exact Hsynced).
  replace (Qgt_bool (1 * inject_Z now) (_uptimeLastSync_ms self)) with true
    by (symmetry; apply Qgt_bool_true; rewrite Hu; lra).
  rewrite to_long_in_range; rewrite Hd; [| unfold LONG_MIN, LONG_MAX; lia].
  cbv zeta.
  replace (now - u - 1000 * s <? 0) with true by (symmetry; apply Z.ltb_lt; lia).
  unfold to_time_t.
  rewrite (Qtrunc_comp _ _ (extrapolated_ms_eq self now)).
  fold (to_time_t (extrapolated_ms self now / 1000)).
  rewrite (to_time_t_floor _ Hq Hfits). reflexivity.
Qed.

(** X6: on a reachable instance that holds a valid synchronisation whose
    epoch is a whole number of milliseconds, a call of [syntheticTime]
    whose clock reading is after the synchronisation point and less than
    [_recall_ms] after it makes no call of [serverTime]: it returns [true]
    with the floor of [now + _epochLastSync_ms - _uptimeLastSync_ms] over
    1000 and leaves the instance as it was (provided these seconds fit
    [time_t]). *)
Theorem fresh_cache_answers_locally
    (url : string) (recall_s minEpoch_s : N)
    (self : t) (now epoch_ms : Z) (x : Exchange) :
  reachable (NodeRedTime url recall_s minEpoch_s) self ->
  (_epochLastSync_ms self == inject_Z epoch_ms)%Q ->
  (_minEpoch_ms self <= _epochLastSync_ms self)%Q ->
  (_uptimeLastSync_ms self < inject_Z now)%Q ->
  (inject_Z now - _uptimeLastSync_ms self < _recall_ms self)%Q ->
  Qfloor (extrapolated_ms self now / 1000) <= TIME_T_MAX ->
  syntheticTime self now x
  = Some (Extrapolated,
          {| ok := true; epoch := Qfloor (extrapolated_ms self now / 1000);
             after := self |}).
Proof.
  intros Hreach _ Hsynced Hforward Hrecent Hfits.
  destruct (reachable_integral_sync _ _ _ _ Hreach) as [(u & Hu & _) Hpos].
  destruct (reachable_config _ _ Hreach) as [Hr _].
  change (_recall_ms (NodeRedTime url recall_s minEpoch_s))
    with (1000 * inject_Z (clipped_recall_s recall_s))%Q in Hr.
  apply (extrapolation_path self now x u (clipped_recall_s recall_s));
    try assumption.
  - unfold clipped_recall_s. lia.
  - rewrite Hu in Hforward, Hrecent. rewrite Hr in Hrecent.
    assert (H1 : (inject_Z u < inject_Z now)%Q) by lra.
    assert (H2 : (inject_Z now
                  < inject_Z (u + 1000 * clipped_recall_s recall_s))%Q).
    { rewrite inject_Z_plus, inject_Z_mult.
      change (inject_Z 1000) with 1000%Q. lra. }
    rewrite <- Zlt_Qlt in H1, H2. lia.
Qed.

Lemma fresh_cache_answers_locally_witness :
  syntheticTime syncedA 3600104 exchange404
  = Some (Extrapolated,
          {| ok := true; epoch := 1700003599; after := syncedA |}).
Proof.
  apply (fresh_cache_answers_locally "http://host:1880/time/" 3600 1262304000
           syncedA 3600104 1700000000000 exchange404);
    [| reflexivity | discriminate | reflexivity | reflexivity | discriminate].
  exact (reachable_call (NodeRedTime "http://host:1880/time/" 3600 1262304000)
           (NodeRedTime "http://host:1880/time/" 3600 1262304000)
           (CallSyntheticTime 7 exchangeA) Fetched
           {| ok := true; epoch := 1700000000; after := syncedA |}
           (reachable_init _) eq_refl).
Defined.

(** The seconds given by extrapolation, against the seconds of the
    synchronisation point, while the operand of the [(long)] cast is below
    2^31 and the seconds fit [time_t]. *)
Lemma extrapolated_epoch_bounds
    (url : string) (recall_s minEpoch_s : N)
    (self : t) (now : Z) (x : Exchange) (o : Outcome) :
  reachable (NodeRedTime url recall_s minEpoch_s) self ->
  syntheticTime self now x = Some (Extrapolated, o) ->
  (inject_Z now - _uptimeLastSync_ms self < inject_Z (2 ^ 31))%Q ->
  Qfloor (extrapolated_ms self now / 1000) <= TIME_T_MAX ->
  Qfloor (_epochLastSync_ms self / 1000) <= epoch o
  /\ epoch o <= Qfloor (_epochLastSync_ms self / 1000)
                + clipped_recall_s recall_s.
Proof.
  intros Hreach Hcall Hrange Hfits.
  destruct (reachable_integral_sync _ _ _ _ Hreach) as [_ Hpos].
  destruct (reachable_config _ _ Hreach) as [Hr _].
  change (_recall_ms (NodeRedTime url recall_s minEpoch_s))
    with (1000 * inject_Z (clipped_recall_s recall_s))%Q in Hr.
  assert (Hclip : (0 <= inject_Z (clipped_recall_s recall_s))%Q).
  { change 0%Q with (inject_Z 0). rewrite <- Zle_Qle.
    unfold clipped_recall_s. lia. }
  assert (Hrecent : (inject_Z now - _uptimeLastSync_ms self
                     < _recall_ms self)%Q).
  { apply (extrapolated_in_range_is_recent self x now o Hcall).
    rewrite Hr. lra. }
  destruct (syntheticTime_inv self x now _ _ Hcall)
    as [(_ & _ & Hforward & _ & He & _) | [Hp _]]; [| discriminate].
  rewrite Hr in Hrecent. rewrite He.
  fold (extrapolated_ms self now).
  assert (Hlow : (_epochLastSync_ms self <= extrapolated_ms self now)%Q)
    by (unfold extrapolated_ms; lra).
  assert (Hq : (0 <= extrapolated_ms self now / 1000)%Q)
    by (apply Qdiv_1000_nonneg; lra).
  rewrite (to_time_t_floor _ Hq Hfits). split.
  - apply Qfloor_resp_le, Qdiv_1000_le, Hlow.
  - apply Z.lt_succ_r. unfold Z.succ. rewrite Zlt_Qlt.
    apply Qle_lt_trans with (extrapolated_ms self now / 1000)%Q;
      [apply Qfloor_le |].
    pose proof (Qlt_floor (_epochLastSync_ms self / 1000)) as Hf.
    rewrite !inject_Z_plus in *. change (inject_Z 1) with 1%Q in *.
    apply Qlt_le_trans
      with (_epochLastSync_ms self / 1000
            + inject_Z (clipped_recall_s recall_s))%Q; [| lra].
    apply Qlt_shift_div_r; [reflexivity |].
    setoid_replace
      ((_epochLastSync_ms self / 1000 + inject_Z (clipped_recall_s recall_s))
       * 1000)%Q
      with (_epochLastSync_ms self
            + 1000 * inject_Z (clipped_recall_s recall_s))%Q by field.
    unfold extrapolated_ms. lra.
Qed.

(** X7: after a successful [serverTime] that received a whole number of
    milliseconds and returned [e] seconds, a [syntheticTime] that is called
    less than 2^31 ms after the synchronisation point, answers by
    extrapolation and has its seconds fit [time_t] returns at least [e] and
    at most [e] plus the resync interval in seconds. *)
Theorem extrapolation_stays_near_sync
    (url : string) (recall_s minEpoch_s : N)
    (self : t) (x x' : Exchange) (o o' : Outcome) (now reply_ms : Z) :
  reachable (NodeRedTime url recall_s minEpoch_s) self ->
  serverTime self x = Some o ->
  ok o = true ->
  (received x == inject_Z reply_ms)%Q ->
  syntheticTime (after o) now x' = Some (Extrapolated, o') ->
  (inject_Z now - _uptimeLastSync_ms (after o) < inject_Z (2 ^ 31))%Q ->
  Qfloor (extrapolated_ms (after o) now / 1000) <= TIME_T_MAX ->
  epoch o <= epoch o' <= epoch o + clipped_recall_s recall_s.
Proof.
  intros Hreach Hcall Hok _ Hnext Hrange Hfits.
  assert (Hreach' : reachable (NodeRedTime url recall_s minEpoch_s) (after o)).
  { apply (reachable_call _ self (CallServerTime x) Fetched o Hreach).
    simpl. unfold viaServerTime. rewrite Hcall. reflexivity. }
  destruct (serverTime_success_inv self x o Hcall Hok)
    as (sync_ms & _ & Hvalid & He & Hafter).
  assert (Hmin : (0 <= _minEpoch_ms self)%Q).
  { destruct (reachable_config _ _ Hreach) as [_ ->].
    apply constructed_minEpoch_nonneg. }
  destruct (extrapolated_epoch_bounds _ _ _ _ _ _ _ Hreach' Hnext Hrange Hfits)
    as [Hlo Hhi].
  assert (Hfit0 : Qfloor (_epochLastSync_ms (after o) / 1000) <= TIME_T_MAX).
  { apply Z.le_trans with (epoch o'); [exact Hlo |].
    destruct (syntheticTime_inv _ _ _ _ _ Hnext)
      as [(_ & _ & _ & _ & He' & _) | [Hp _]]; [| discriminate].
    rewrite He'. apply wrap_unsigned_range. }
  assert (Hsec : epoch o = Qfloor (_epochLastSync_ms (after o) / 1000)).
  { rewrite He. rewrite Hafter in Hfit0 |- *.
    cbn [_epochLastSync_ms set_sync] in Hfit0 |- *.
    apply to_time_t_floor; [apply Qdiv_1000_nonneg; lra | exact Hfit0]. }
  rewrite Hsec. split; assumption.
Qed.

Lemma extrapolation_stays_near_sync_witness :
  serverTime (NodeRedTime "http://host:1880/time/" 3600 1262304000) exchangeA
  = Some {| ok := true; epoch := 1700000000; after := syncedA |}
  /\ syntheticTime syncedA 3600104 exchange404
     = Some (Extrapolated,
             {| ok := true; epoch := 1700003599; after := syncedA |})
  /\ 1700000000 <= 1700003599 <= 1700000000 + clipped_recall_s 3600.
Proof.
  split; [reflexivity |]. split; [reflexivity |].
  apply (extrapolation_stays_near_sync
           "http://host:1880/time/" 3600 1262304000
           (NodeRedTime "http://host:1880/time/" 3600 1262304000)
           exchangeA exchange404
           {| ok := true; epoch := 1700000000; after := syncedA |}
           {| ok := true; epoch := 1700003599; after := syncedA |}
           3600104 1700000000000);
    [apply reachable_init | reflexivity | reflexivity | reflexivity
    | reflexivity | reflexivity | discriminate].
Defined.

(** X8: two extrapolated answers from the same reachable state are ordered
    like the clock readings they were made at: as long as the seconds of
    the later answer fit [time_t], a later reading of [millis()] never
    gives earlier seconds. *)
Theorem extrapolation_is_monotone
    (url : string) (recall_s minEpoch_s : N)
    (self : t) (now1 now2 : Z) (x1 x2 : Exchange) (o1 o2 : Outcome) :
  reachable (NodeRedTime url recall_s minEpoch_s) self ->
  syntheticTime self now1 x1 = Some (Extrapolated, o1) ->
  syntheticTime self now2 x2 = Some (Extrapolated, o2) ->
  now1 <= now2 ->
  Qfloor (extrapolated_ms self now2 / 1000) <= TIME_T_MAX ->
  epoch o1 <= epoch o2.
Proof.
  intros Hreach H1 H2 Hle Hfits.
  destruct (reachable_integral_sync _ _ _ _ Hreach) as [_ Hpos].
  destruct (syntheticTime_inv self x1 now1 _ _ H1)
    as [(_ & _ & Hf1 & _ & He1 & _) | [Hp _]]; [| discriminate].
  destruct (syntheticTime_inv self x2 now2 _ _ H2)
    as [(_ & _ & Hf2 & _ & He2 & _) | [Hp _]]; [| discriminate].
  rewrite He1, He2.
  fold (extrapolated_ms self now1). fold (extrapolated_ms self now2).
  assert (Hq1 : (0 <= extrapolated_ms self now1 / 1000)%Q)
    by (apply Qdiv_1000_nonneg; unfold extrapolated_ms; lra).
  assert (Hq2 : (0 <= extrapolated_ms self now2 / 1000)%Q)
    by (apply Qdiv_1000_nonneg; unfold extrapolated_ms; lra).
  assert (Hmono : Qfloor (extrapolated_ms self now1 / 1000)
                  <= Qfloor (extrapolated_ms self now2 / 1000)).
  { apply Qfloor_resp_le, Qdiv_1000_le. unfold extrapolated_ms.
    rewrite Zle_Qle in Hle. lra. }
  rewrite (to_time_t_floor _ Hq2 Hfits).
  rewrite (to_time_t_floor _ Hq1) by lia.
  exact Hmono.
Qed.

Lemma extrapolation_is_monotone_witness :
  syntheticTime syncedA 2200 exchangeA
  = Some (Extrapolated,
          {| ok := true; epoch := 1700000002; after := syncedA |})
  /\ syntheticTime syncedA 3600104 exchange404
     = Some (Extrapolated,
             {| ok := true; epoch := 1700003599; after := syncedA |})
  /\ 1700000002 <= 1700003599.
Proof.
  split; [reflexivity |]. split; [reflexivity |].
  apply (extrapolation_is_monotone "http://host:1880/time/" 3600 1262304000
           syncedA 2200 3600104 exchangeA exchange404
           {| ok := true; epoch := 1700000002; after := syncedA |}
           {| ok := true; epoch := 1700003599; after := syncedA |});
    [| reflexivity | reflexivity | discriminate | discriminate].
  exact (reachable_call (NodeRedTime "http://host:1880/time/" 3600 1262304000)
           (NodeRedTime "http://host:1880/time/" 3600 1262304000)
           (CallSyntheticTime 7 exchangeA) Fetched
           {| ok := true; epoch := 1700000000; after := syncedA |}
           (reachable_init _) eq_refl).
Defined.

(** X9: an answer by extrapolation uses nothing of the network and writes
    nothing: it returns [true], leaves the instance unchanged, and is the
    same whatever exchange the server would have offered. *)
Theorem extrapolation_is_local
    (self : t) (now : Z) (x : Exchange) (o : Outcome) :
  syntheticTime self now x = Some (Extrapolated, o) ->
  ok o = true
  /\ after o = self
  /\ forall x', syntheticTime self now x' = Some (Extrapolated, o).
Proof.
  assert (Hfetch : forall y, viaServerTime self y <> Some (Extrapolated, o)).
  { intros y. unfold viaServerTime.
    destruct (serverTime self y); simpl; discriminate. }
  unfold syntheticTime.
  destruct (Qle_bool _ _); [| intros H; destruct (Hfetch _ H)].
  destruct (Qgt_bool _ _); [| intros H; destruct (Hfetch _ H)].
  destruct (_ <? 0); [| intros H; destruct (Hfetch _ H)].
  intros [= <-]. auto.
Qed.

Lemma extrapolation_is_local_witness :
  ok {| ok := true; epoch := 1700000002; after := syncedA |} = true
  /\ after {| ok := true; epoch := 1700000002; after := syncedA |} = syncedA
  /\ forall x', syntheticTime syncedA 2200 x'
                = Some (Extrapolated,
                        {| ok := true; epoch := 1700000002; after := syncedA |}).
Proof.
  apply (extrapolation_is_local syncedA 2200 exchange404). reflexivity.
Defined.

(** X10: [serverTime] never reuses a previous result: the boolean and the
    seconds it returns do not depend on the synchronisation pair the
    instance holds, and a successful call leaves the same instance whatever
    that pair was. *)
Theorem serverTime_ignores_cache
    (self : t) (x : Exchange) (epoch_ms uptime_ms : Q) :
  option_map (fun o => (ok o, epoch o))
    (serverTime (set_sync self epoch_ms uptime_ms) x)
  = option_map (fun o => (ok o, epoch o)) (serverTime self x)
  /\ forall o, serverTime self x = Some o ->
               ok o = true ->
               serverTime (set_sync self epoch_ms uptime_ms) x = Some o.
Proof.
  unfold serverTime.
  destruct (begin_ok x);
    [destruct (to_ulong _) as [sync_ms |] |]; cbn [bind];
    try (split; [reflexivity | discriminate]);
    change (_minEpoch_ms (set_sync self epoch_ms uptime_ms))
      with (_minEpoch_ms self);
    (destruct (Qle_bool _ _);
     split; try reflexivity;
     intros o [= <-]; try discriminate; reflexivity).
Qed.

Lemma Qfloor_plus_Z (q : Q) (k : Z) : Qfloor (q + inject_Z k) = Qfloor q + k.
Proof.
  destruct q as [n d]. unfold Qfloor, Qplus, inject_Z; simpl.
  rewrite Pos.mul_1_r, Z.mul_1_r. apply Z.div_add. lia.
Qed.

(** X14: the extrapolated clock ticks once per 1000 ms of [millis()]: on a
    reachable instance whose cached epoch is a whole number of
    milliseconds, two answers by extrapolation made [1000 * k] milliseconds
    apart, both with seconds that fit [time_t], differ by exactly [k]
    seconds. *)
Theorem extrapolation_ticks_each_second
    (url : string) (recall_s minEpoch_s : N)
    (self : t) (now k epoch_ms : Z) (x1 x2 : Exchange) (o1 o2 : Outcome) :
  reachable (NodeRedTime url recall_s minEpoch_s) self ->
  (_epochLastSync_ms self == inject_Z epoch_ms)%Q ->
  syntheticTime self now x1 = Some (Extrapolated, o1) ->
  syntheticTime self (now + 1000 * k) x2 = Some (Extrapolated, o2) ->
  Qfloor (extrapolated_ms self now / 1000) <= TIME_T_MAX ->
  Qfloor (extrapolated_ms self (now + 1000 * k) / 1000) <= TIME_T_MAX ->
  epoch o2 = epoch o1 + k.
Proof.
  intros Hreach _ H1 H2 Hfits1 Hfits2.
  destruct (reachable_integral_sync _ _ _ _ Hreach) as [_ Hpos].
  destruct (syntheticTime_inv self x1 now _ _ H1)
    as [(_ & _ & Hf1 & _ & He1 & _) | [Hp _]]; [| discriminate].
  destruct (syntheticTime_inv self x2 (now + 1000 * k) _ _ H2)
    as [(_ & _ & Hf2 & _ & He2 & _) | [Hp _]]; [| discriminate].
  rewrite He1, He2.
  fold (extrapolated_ms self now). fold (extrapolated_ms self (now + 1000 * k)).
  assert (Hq1 : (0 <= extrapolated_ms self now / 1000)%Q)
    by (apply Qdiv_1000_nonneg; unfold extrapolated_ms; lra).
  assert (Hq2 : (0 <= extrapolated_ms self (now + 1000 * k) / 1000)%Q)
    by (apply Qdiv_1000_nonneg; unfold extrapolated_ms; lra).
  rewrite (to_time_t_floor _ Hq1 Hfits1), (to_time_t_floor _ Hq2 Hfits2).
  rewrite <- Qfloor_plus_Z. apply Qfloor_comp.
  unfold extrapolated_ms. rewrite inject_Z_plus, inject_Z_mult.
  change (inject_Z 1000) with 1000%Q. field.
Qed.

Lemma extrapolation_ticks_each_second_witness :
  syntheticTime syncedA 2200 exchangeA
  = Some (Extrapolated,
          {| ok := true; epoch := 1700000002; after := syncedA |})
  /\ syntheticTime syncedA (2200 + 1000 * 3597) exchange404
     = Some (Extrapolated,
             {| ok := true; epoch := 1700003599; after := syncedA |})
  /\ 1700003599 = 1700000002 + 3597.
Proof.
  split; [reflexivity |]. split; [reflexivity |].
  apply (extrapolation_ticks_each_second
           "http://host:1880/time/" 3600 1262304000
           syncedA 2200 3597 1700000000000 exchangeA exchange404
           {| ok := true; epoch := 1700000002; after := syncedA |}
           {| ok := true; epoch := 1700003599; after := syncedA |});
    [| reflexivity | reflexivity | reflexivity | discriminate | discriminate].
  exact (reachable_call (NodeRedTime "http://host:1880/time/" 3600 1262304000)
           (NodeRedTime "http://host:1880/time/" 3600 1262304000)
           (CallSyntheticTime 7 exchangeA) Fetched
           {| ok := true; epoch := 1700000000; after := syncedA |}
           (reachable_init _) eq_refl).
Defined.

(** ** Failures along a run *)

Lemma run_head (self : t) (calls : list Call) (ev : Event) (evs : list Event) :
  run self calls = Some (ev :: evs) -> before ev = self.
Proof.
  destruct calls as [| c calls]; simpl; [discriminate |].
  destruct (call self c) as [[p o] |]; simpl; [| discriminate].
  destruct (run _ calls); simpl; [| discriminate].
  intros [= <- _]. reflexivity.
Qed.

(** In a run, each call is made on the instance the call before it left. *)
Lemma run_adjacent (calls : list Call) :
  forall self earlier ev1 ev2 later,
    run self calls = Some (earlier ++ ev1 :: ev2 :: later) ->
    before ev2 = after (outcome ev1).
Proof.
  induction calls as [| c calls IH]; intros self earlier ev1 ev2 later; simpl.
  - destruct earlier; discriminate.
  - destruct (call self c) as [[p o] |]; simpl; [| discriminate].
    destruct (run (after o) calls) as [evs |] eqn:Hrun; simpl;
      [| discriminate].
    destruct earlier as [| ev earlier]; simpl; intros [= Hev Hevs].
    + subst ev1 evs. simpl. exact (run_head _ _ _ _ Hrun).
    + subst evs. exact (IH _ _ _ _ _ Hrun).
Qed.

(** The sentinel sends [syntheticTime] to [serverTime] when
    [_minEpoch_ms] is positive. *)
Lemma sentinel_is_never_extrapolated
    (self : t) (now : Z) (x : Exchange) (o : Outcome) :
  (0 < _minEpoch_ms self)%Q ->
  _epochLastSync_ms self = 0%Q ->
  syntheticTime self now x <> Some (Extrapolated, o).
Proof.
  intros Hmin Hzero Hcall.
  destruct (syntheticTime_inv self x now _ _ Hcall)
    as [(_ & Hsynced & _) | [Hp _]]; [| discriminate].
  rewrite Hzero in Hsynced. lra.
Qed.

(** X11: along any run of calls on an instance whose [_minEpoch_ms] is
    positive, the call that follows a call that returned [false] (be it
    [serverTime] or [syntheticTime]) is never answered by extrapolation. *)
Theorem failed_call_is_followed_by_fetch
    (init : t) (calls : list Call)
    (earlier later : list Event) (ev1 ev2 : Event) :
  (0 < _minEpoch_ms init)%Q ->
  run init calls = Some (earlier ++ ev1 :: ev2 :: later) ->
  ok (outcome ev1) = false ->
  path ev2 = Fetched.
Proof.
  intros Hmin Hrun Hfail.
  pose proof (run_adjacent _ _ _ _ _ _ Hrun) as Hnext.
  pose proof (run_reachable init calls init _ (reachable_init init) Hrun) as Hr.
  pose proof (run_sound calls init _ Hrun) as Hs.
  rewrite Forall_forall in Hr, Hs.
  assert (Hin1 : In ev1 (earlier ++ ev1 :: ev2 :: later))
    by (apply in_or_app; right; left; reflexivity).
  assert (Hin2 : In ev2 (earlier ++ ev1 :: ev2 :: later))
    by (apply in_or_app; right; right; left; reflexivity).
  pose proof (Hs ev1 Hin1) as Hcall1. pose proof (Hs ev2 Hin2) as Hcall2.
  destruct (reachable_config _ _ (Hr ev1 Hin1)) as [_ Hmin1].
  destruct (call_inv _ _ _ _ Hcall1)
    as [(now & x & _ & _ & _ & Hok & _) | (x & Hserver & _)]; [congruence |].
  pose proof (serverTime_failure_state _ _ _ Hserver Hfail) as Hstate.
  destruct (call_inv _ _ _ _ Hcall2)
    as [(now & x' & _ & Hextra & _) | (x' & _ & Hp)]; [| exact Hp].
  exfalso. revert Hextra. rewrite Hnext, Hstate.
  apply sentinel_is_never_extrapolated; simpl; [| reflexivity].
  rewrite Hmin1. exact Hmin.
Qed.

Lemma failed_call_is_followed_by_fetch_witness :
  option_map (map summary)
    (run (NodeRedTime "http://host:1880/time/" 3600 1262304000) callsA)
  = Some [(Fetched, true, 1700000000); (Extrapolated, true, 1700000002);
          (Extrapolated, true, 1700003599); (Fetched, false, 0);
          (Fetched, true, 1700003600); (Extrapolated, true, 1700003602)]
  /\ path {| before := set_epochLastSync syncedA 0;
             made := CallSyntheticTime 3600200 exchangeB;
             path := Fetched;
             outcome := {| ok := true; epoch := 1700003600;
                           after := set_sync syncedA 1700003600100 3600205 |} |}
     = Fetched.
Proof.
  split; [reflexivity |].
  apply (failed_call_is_followed_by_fetch
           (NodeRedTime "http://host:1880/time/" 3600 1262304000) callsA
           [ {| before := NodeRedTime "http://host:1880/time/" 3600 1262304000;
                made := CallSyntheticTime 7 exchangeA; path := Fetched;
                outcome := {| ok := true; epoch := 1700000000;
                              after := syncedA |} |};
             {| before := syncedA; made := CallSyntheticTime 2200 exchangeA;
                path := Extrapolated;
                outcome := {| ok := true; epoch := 1700000002;
                              after := syncedA |} |};
             {| before := syncedA; made := CallSyntheticTime 3600104 exchangeA;
                path := Extrapolated;
                outcome := {| ok := true; epoch := 1700003599;
                              after := syncedA |} |} ]
           [ {| before := set_sync syncedA 1700003600100 3600205;
                made := CallSyntheticTime 3602300 exchangeB;
                path := Extrapolated;
                outcome := {| ok := true; epoch := 1700003602;
                              after := set_sync syncedA 1700003600100 3600205 |} |} ]
           {| before := syncedA; made := CallSyntheticTime 3600105 exchange404;
              path := Fetched;
              outcome := {| ok := false; epoch := 0;
                            after := set_epochLastSync syncedA 0 |} |});
    reflexivity.
Defined.

(** ** The resync test within the range of [long] *)

(** X15: while the operand of the [(long)] cast at line 127,
    [now - (_uptimeLastSync_ms + _recall_ms)], is below 2^31,
    [syntheticTime] answers from the cached pair only when the elapsed
    local time is strictly less than [_recall_ms]; and when the elapsed
    time equals [_recall_ms] the call delegates to [serverTime]. *)
Theorem resync_boundary_in_range (self : t) (now : Z) (x : Exchange) :
  (inject_Z now - _uptimeLastSync_ms self - _recall_ms self
   < inject_Z (2 ^ 31))%Q ->
  (forall o, syntheticTime self now x = Some (Extrapolated, o) ->
             (inject_Z now - _uptimeLastSync_ms self < _recall_ms self)%Q)
  /\ ((inject_Z now - _uptimeLastSync_ms self == _recall_ms self)%Q ->
      syntheticTime self now x = viaServerTime self x).
Proof.
  intros Hrange. split.
  - intros o H. exact (extrapolated_in_range_is_recent self x now o H Hrange).
  - intros Htie. unfold syntheticTime.
    destruct (Qle_bool _ _); [| reflexivity].
    destruct (Qgt_bool _ _); [| reflexivity].
    assert (Hd : Qtrunc (1 * inject_Z now
                         - (_uptimeLastSync_ms self + _recall_ms self)) = 0).
    { apply Qtrunc_integer. change (inject_Z 0) with 0%Q. lra. }
    unfold to_long. rewrite Hd. reflexivity.
Qed.

Lemma resync_boundary_in_range_witness :
  syntheticTime syncedA 3600105 exchangeB = viaServerTime syncedA exchangeB
  /\ syntheticTime syncedA 3600104 exchangeA
     = Some (Extrapolated,
             {| ok := true; epoch := 1700003599; after := syncedA |})
  /\ (inject_Z 3600104 - _uptimeLastSync_ms syncedA < _recall_ms syncedA)%Q.
Proof.
  split; [| split; [reflexivity |]].
  - apply (proj2 (resync_boundary_in_range syncedA 3600105 exchangeB
                    ltac:(reflexivity))).
    reflexivity.
  - apply (proj1 (resync_boundary_in_range syncedA 3600104 exchangeA
                    ltac:(reflexivity))
             {| ok := true; epoch := 1700003599; after := syncedA |}).
    reflexivity.
Defined.

(** X16: along any sequence of calls, whenever a call of [syntheticTime]
    made with the operand of the [(long)] cast below 2^31 answers by
    extrapolation, the local time elapsed since the synchronisation point of
    the instance at that call is less than the configured [_recall_ms]. *)
Theorem never_stale_bound_in_range
    (init : t) (calls : list Call) (evs : list Event) :
  run init calls = Some evs ->
  Forall (fun ev =>
            forall now x,
              made ev = CallSyntheticTime now x ->
              path ev = Extrapolated ->
              (inject_Z now - _uptimeLastSync_ms (before ev) - _recall_ms init
               < inject_Z (2 ^ 31))%Q ->
              (inject_Z now - _uptimeLastSync_ms (before ev)
               < _recall_ms init)%Q)
         evs.
Proof.
  intros Hrun.
  pose proof (run_reachable init calls init evs (reachable_init init) Hrun) as Hr.
  pose proof (run_sound calls init evs Hrun) as Hs.
  rewrite Forall_forall in *. intros ev Hin now x Hmade Hpath.
  specialize (Hr ev Hin). specialize (Hs ev Hin).
  rewrite Hmade, Hpath in Hs. simpl in Hs.
  destruct (reachable_config _ _ Hr) as [<- _].
  exact (extrapolated_in_range_is_recent _ _ _ _ Hs).
Qed.

Lemma never_stale_bound_in_range_witness :
  Forall (fun ev =>
            forall now x,
              made ev = CallSyntheticTime now x ->
              path ev = Extrapolated ->
              (inject_Z now - _uptimeLastSync_ms (before ev) - 3600000
               < inject_Z (2 ^ 31))%Q ->
              (inject_Z now - _uptimeLastSync_ms (before ev) < 3600000)%Q)
    (match run (NodeRedTime "http://host:1880/time/" 3600 1262304000) callsA with
     | Some evs => evs
     | None => []
     end).
Proof.
  exact (never_stale_bound_in_range
           (NodeRedTime "http://host:1880/time/" 3600 1262304000) callsA _
           eq_refl).
Defined.

(** ** The rationals against binary64 *)

(** On whole milliseconds the two agree: the second call of scenario A and
    the last millisecond before the resync boundary. *)
Example binary64_agrees_on_whole_milliseconds :
  Binary64.extrapolated_seconds 2200 1700000000000 105 = Some 1700000002
  /\ Binary64.extrapolated_seconds 3600104 1700000000000 105
     = Some 1700003599
  /\ Binary64.served_seconds 1700000000999 = Some 1700000000.
Proof. repeat split; vm_compute; reflexivity. Qed.

(** On a cached epoch with a fraction they need not: for the [double] just
    below 2^41, uptime 105 and a reading of 553, the sum of line 134 rounds
    up in binary64 and the seconds are one more than the floor of the exact
    value.  The statements about extrapolated seconds therefore ask for a
    whole number of milliseconds. *)
Example binary64_rounds_a_fractional_epoch :
  Binary64.extrapolated_seconds 553 0x1.fffffffffffffp+40 105
  = Some 2199023256
  /\ Qfloor ((inject_Z 553 + (9007199254740991 # 4096) - 105) / 1000)
     = 2199023255.
Proof. split; vm_compute; reflexivity. Qed.

(** * The example sketches *)

Import Sketch.

(** ** The 30-second timer of [connectToWiFiNetwork] *)

(** The test of the timer, told in milliseconds elapsed since it was
    started: it holds from 30000 on, wherever the counter wraps. *)
Lemma timeoutExpired_elapsed (start elapsed : Z) :
  0 <= elapsed < 2 ^ 31 + 30000 ->
  timeoutExpired (ulong_add start 30000) ((start + elapsed) mod ULONG_MOD)
  = (30000 <=? elapsed).
Proof.
  intros He. unfold timeoutExpired, ulong_sub, ulong_add.
  rewrite <- Zminus_mod.
  replace (start + elapsed - (start + 30000)) with (elapsed - 30000) by ring.
  unfold long_of_ulong, ULONG_MOD in *.
  destruct (Z.leb_spec 30000 elapsed) as [Hlate | Hearly].
  - rewrite Z.mod_small by lia.
    replace (elapsed - 30000 <? 2 ^ 31) with true
      by (symmetry; apply Z.ltb_lt; lia).
    apply Z.leb_le. lia.
  - replace ((elapsed - 30000) mod 2 ^ 32) with (elapsed - 30000 + 2 ^ 32).
    + replace (elapsed - 30000 + 2 ^ 32 <? 2 ^ 31) with false
        by (symmetry; apply Z.ltb_ge; lia).
      apply Z.leb_gt. lia.
    + rewrite <- (Z_mod_plus_full (elapsed - 30000) 1 (2 ^ 32)).
      rewrite Z.mod_small by lia. lia.
Qed.

(** X12: the wait of [connectToWiFiNetwork] behaves as a wait on a clock
    that does not wrap: polled at moments less than 2^31 + 30000 ms after the
    timer was started, it is left at the first poll that finds the
    connection, and restarts the device at the first poll made 30000 ms or
    more after the start, wherever the 32-bit counter wraps in between. *)
Theorem connectToWiFiNetwork_is_wrap_safe
    (start : Z) (seen : list (bool * Z)) :
  Forall (fun o => 0 <= snd o < 2 ^ 31 + 30000) seen ->
  connectToWiFiNetwork start (map (pollAfter start) seen) = waitByElapsed seen.
Proof.
  unfold connectToWiFiNetwork.
  induction 1 as [| [is_connected elapsed] seen Hrange _ IH]; [reflexivity |].
  simpl in *. destruct is_connected; [reflexivity |].
  rewrite (timeoutExpired_elapsed start elapsed Hrange).
  destruct (30000 <=? elapsed); [reflexivity | exact IH].
Qed.

Lemma connectToWiFiNetwork_is_wrap_safe_witness :
  map (pollAfter 4294960000) [(false, 0); (false, 29999); (false, 30000)]
  = [ {| connected := false; millis := 4294960000 |};
      {| connected := false; millis := 22703 |};
      {| connected := false; millis := 22704 |} ]
  /\ connectToWiFiNetwork 4294960000
       (map (pollAfter 4294960000) [(false, 0); (false, 29999); (false, 30000)])
     = Restarted.
Proof.
  split; [reflexivity |].
  rewrite (connectToWiFiNetwork_is_wrap_safe 4294960000
             [(false, 0); (false, 29999); (false, 30000)]); [reflexivity |].
  repeat constructor; simpl; lia.
Defined.

(** ** The dots of [loop] *)

Lemma dots_app (a b : string) : dots (a ++ b) = (dots a + dots b)%nat.
Proof.
  induction a as [| c a IH]; simpl; [reflexivity |]. rewrite IH. lia.
Qed.

Lemma loop_step (s : Dots) :
  loopCount s <= 250 ->
  loopCount (loop s) = loopCount s + 1
  /\ dots (serial (loop s)) = S (dots (serial s)).
Proof.
  intros Hle. unfold loop.
  replace (250 <? loopCount s) with false by (symmetry; apply Z.ltb_ge; lia).
  destruct (Z.rem (loopCount s + 1) 50 =? 0); simpl;
    rewrite ?dots_app; simpl; split; lia.
Qed.

Lemma loop_silent (s : Dots) : 250 < loopCount s -> loop s = s.
Proof.
  intros Hgt. unfold loop.
  replace (250 <? loopCount s) with true by (symmetry; apply Z.ltb_lt; lia).
  reflexivity.
Qed.

Lemma loops_S (n : nat) : loops (S n) = loop (loops n).
Proof. reflexivity. Qed.

Lemma loops_count (n : nat) :
  loopCount (loops n) = Z.of_nat (Nat.min n 251)
  /\ dots (serial (loops n)) = Nat.min n 251.
Proof.
  induction n as [| n [IHc IHd]]; [split; reflexivity |].
  rewrite loops_S.
  destruct (Nat.le_gt_cases n 250) as [Hle | Hgt].
  - destruct (loop_step (loops n)) as [Hc Hd]; [lia |].
    rewrite Hc, Hd, IHc, IHd. split; lia.
  - rewrite loop_silent by lia. rewrite IHc, IHd. split; lia.
Qed.

(** X13: [loop] of the NTP comparison sketch writes one dot per call for
    its first 251 calls, ending the line after every 50th, and then goes
    silent: after [n] calls [loopCount] and the number of dots written are
    both [min n 251], what is written after 251 calls is five lines of 50
    dots and one more dot, and no later call changes anything. *)
Theorem loop_goes_silent (n : nat) :
  loopCount (loops n) = Z.of_nat (Nat.min n 251)
  /\ dots (serial (loops n)) = Nat.min n 251
  /\ serial (loops 251)
     = (dotted_line 50 ++ dotted_line 50 ++ dotted_line 50 ++ dotted_line 50
        ++ dotted_line 50 ++ ".")%string
  /\ loops (251 + n) = loops 251.
Proof.
  split; [apply loops_count |]. split; [apply loops_count |].
  split; [vm_compute; reflexivity |].
  induction n as [| n IH]; [rewrite Nat.add_0_r; reflexivity |].
  rewrite Nat.add_succ_r, loops_S, IH.
  apply loop_silent. vm_compute. reflexivity.
Qed.
